(** * Temple Heritage Hub: location resolution and contribution persistence

    A shallow embedding of the logic of [temple_history_app.py]:
    the location component ([get_location_from_ip],
    [location_input_component]), the upload form
    ([upload_content_interface]), the writer ([save_contribution]) and the
    read side ([browse_contributions], [show_heritage_map]).

    Conventions of the embedding.
    - A Python [str] is a [string] (its UTF-8 bytes); [strip] removes the
      white space that [str.strip()] removes, ASCII and Unicode, read off
      the bytes of its encoding.
    - A Python [float] holding a coordinate is a rational [Q]; its truth
      value is "differs from zero".  Non-finite floats are outside the model.
    - [None] is [None]: an optional value is an [option].
    - Streamlit widgets are inputs of a script run (what the user chose,
      typed or clicked); the calls that render something are collected as a
      list of [ui_event]s.  Captions ([st.info], [st.subheader], help texts)
      are not rendered into events.
    - [st.button] and [st.number_input] are taken as they behave outside
      [st.form]: a click is an input of the run and the number input is
      total.  Inside the form of the upload page Streamlit refuses
      [st.button], so what a run of the page shows and saves is stated for
      the Device GPS choice, the branch without a button.
    - A raised Python exception is the [raised] outcome of a computation. *)

From Stdlib Require Import String Ascii Strings.Byte List Bool Arith PeanoNat Lia QArith.
From Stdlib Require Import Permutation Sorted.
Import ListNotations.
Local Close Scope Q_scope.
Local Open Scope string_scope.
Local Open Scope list_scope.

Set Implicit Arguments.

(* ================================================================= *)
(** ** Python values *)

Module Py.

(** [str.isspace] on the ASCII range: TAB, LF, VT, FF, CR, the four
    separators 0x1c-0x1f and the space. *)
Definition is_space (c : ascii) : bool :=
  let n := nat_of_ascii c in
  ((9 <=? n) && (n <=? 13) || (28 <=? n) && (n <=? 32))%nat.

(** White space of two bytes in UTF-8: U+0085 and U+00A0. *)
Definition is_space2 (c1 c2 : ascii) : bool :=
  let n1 := nat_of_ascii c1 in
  let n2 := nat_of_ascii c2 in
  ((n1 =? 194) && ((n2 =? 133) || (n2 =? 160)))%nat.

(** White space of three bytes in UTF-8: U+1680, U+2000 to U+200A, U+2028,
    U+2029, U+202F, U+205F and U+3000. *)
Definition is_space3 (c1 c2 c3 : ascii) : bool :=
  let n1 := nat_of_ascii c1 in
  let n2 := nat_of_ascii c2 in
  let n3 := nat_of_ascii c3 in
  ((n1 =? 225) && (n2 =? 154) && (n3 =? 128)
   || (n1 =? 226) && (n2 =? 128)
      && ((128 <=? n3) && (n3 <=? 138) || (n3 =? 168) || (n3 =? 169)
          || (n3 =? 175))
   || (n1 =? 226) && (n2 =? 129) && (n3 =? 159)
   || (n1 =? 227) && (n2 =? 128) && (n3 =? 128))%nat.

(** Dropping the white space characters a list of bytes starts with. *)
Fixpoint lstrip_bytes (l : list ascii) : list ascii :=
  match l with
  | [] => []
  | c1 :: l1 =>
      if is_space c1 then lstrip_bytes l1
      else
        match l1 with
        | [] => l
        | c2 :: l2 =>
            if is_space2 c1 c2 then lstrip_bytes l2
            else
              match l2 with
              | [] => l
              | c3 :: l3 =>
                  if is_space3 c1 c2 c3 then lstrip_bytes l3 else l
              end
        end
  end.

(** The same on the reversed bytes: the last byte of a character comes
    first. *)
Fixpoint lstrip_reversed (l : list ascii) : list ascii :=
  match l with
  | [] => []
  | c1 :: l1 =>
      if is_space c1 then lstrip_reversed l1
      else
        match l1 with
        | [] => l
        | c2 :: l2 =>
            if is_space2 c2 c1 then lstrip_reversed l2
            else
              match l2 with
              | [] => l
              | c3 :: l3 =>
                  if is_space3 c3 c2 c1 then lstrip_reversed l3 else l
              end
        end
  end.

(** [s.lstrip()] *)
Definition lstrip (s : string) : string :=
  string_of_list_ascii (lstrip_bytes (list_ascii_of_string s)).

(** [s.rstrip()] *)
Definition rstrip (s : string) : string :=
  string_of_list_ascii
    (rev (lstrip_reversed (rev (list_ascii_of_string s)))).

(** [s.strip()] *)
Definition strip (s : string) : string := rstrip (lstrip s).

(** [bool(s)] for a string: non-empty. *)
Definition truthy_str (s : string) : bool :=
  match s with EmptyString => false | String _ _ => true end.

(** [a or b] on strings. *)
Definition or_str (a b : string) : string :=
  if truthy_str a then a else b.

(** [sub in s] for strings. *)
Fixpoint str_in (sub s : string) : bool :=
  prefix sub s ||
  match s with
  | EmptyString => false
  | String _ s' => str_in sub s'
  end.

(** [bool(x)] for a float. *)
Definition truthy_float (x : Q) : bool := negb (Qeq_bool x 0).

(** [bool(v)] for a value that is a float or [None]. *)
Definition truthy (v : option Q) : bool :=
  match v with
  | None => false
  | Some x => truthy_float x
  end.

(** [v != 0] for a value that is a float or [None] ([None != 0] holds). *)
Definition ne_zero (v : option Q) : bool :=
  match v with
  | None => true
  | Some x => negb (Qeq_bool x 0)
  end.

(** [v or 0.0] *)
Definition or_zero (v : option Q) : Q :=
  match v with
  | Some x => if truthy_float x then x else 0.0%Q
  | None => 0.0%Q
  end.

(** [str(v)] inside an f-string, for a value that is a string or [None]. *)
Definition str_of (v : option string) : string :=
  match v with
  | Some s => s
  | None => "None"
  end.

Inductive exception :=
| TypeError                      (* format spec applied to None *)
| DatabaseError (msg : string).  (* sqlite3.Error and the like *)

(** [str(e)] *)
Definition str_exn (e : exception) : string :=
  match e with
  | TypeError => "unsupported format string passed to NoneType.__format__"
  | DatabaseError msg => msg
  end.

(** Outcome of running a piece of Python: a value, or an exception. *)
Inductive outcome (A : Type) :=
| returned (a : A)
| raised (e : exception).
Arguments raised {A} e.

(** Python code that works on a state [S]: it yields an outcome and the
    state it leaves behind; an exception keeps the changes made so far. *)
Definition run (S A : Type) : Type := S -> outcome A * S.

Definition ret {S A} (a : A) : run S A := fun s => (returned a, s).

Definition bind {S A B} (m : run S A) (k : A -> run S B) : run S B :=
  fun s =>
    match m s with
    | (returned a, s') => k a s'
    | (raised e, s') => (raised e, s')
    end.

(** [f"{v:.6f}"]: formatting a float succeeds, formatting [None] raises
    [TypeError].  The formatted value is kept as the number itself. *)
Definition format_6f (v : option Q) : outcome Q :=
  match v with
  | Some x => returned x
  | None => raised TypeError
  end.

End Py.

(* ================================================================= *)
(** ** What a script run shows to the user *)

Inductive ui_event :=
| st_error (msg : string)
| st_warning (msg : string)
| st_success_location (lat lon : Q)          (* "Location detected/set: lat, lon" *)
| st_success_ip (city country : string)      (* "Location detected: city, country" *)
| st_write_coordinates (lat lon : Q)         (* "Coordinates: lat, lon" *)
| st_metric_latitude (lat : Q)
| st_metric_longitude (lon : Q)
| st_map (lat lon : option Q)                (* st.map on a one-row frame *)
| st_success_uploaded (success_count : nat)  (* "Successfully uploaded n file(s)!" *)
| st_balloons.

(* ================================================================= *)
(** ** The location state kept in [st.session_state.location_data] *)

Record location_data := {
  latitude  : option Q;
  longitude : option Q;
  address   : string;
  method    : option string
}.

(** The dictionary the code installs when no location is set. *)
Definition unset_location : location_data :=
  {| latitude := None; longitude := None; address := ""; method := None |}.

(** An uploaded file: [uploaded_file.name] and what [read()] returns. *)
Record uploaded_file := {
  name : string;
  content : list byte
}.

Definition read (f : uploaded_file) : list byte := content f.

(* ================================================================= *)
(** ** The persisted schema ([init_database]) *)

Definition timestamp := nat.

Module Temple.
Record row := {
  name : string;
  location_address : string;
  latitude : option Q;
  longitude : option Q;
  location_accuracy : option Q;
  built_year : option string;
  deity : option string;
  architecture_style : option string;
  description : string;
  contributor_name : string;
  created_at : timestamp
}.
End Temple.

Module Media.
Record row := {
  temple_id : option nat;
  media_type : string;
  filename : string;
  file_data : list byte;
  file_size : nat;
  description : option string;
  latitude : option Q;
  longitude : option Q;
  contributor_name : option string;
  uploaded_at : timestamp
}.
End Media.

Module Content.
Record row := {
  title : string;
  content_type : string;
  description : string;
  latitude : option Q;
  longitude : option Q;
  location_address : string;
  contributor_name : string;
  file_data : list byte;
  filename : string;
  file_size : nat;
  created_at : timestamp
}.
End Content.

Module Event.
(** [historical_events] has no address column. *)
Record row := {
  temple_id : option nat;
  event_date : option string;
  event_title : string;
  event_description : string;
  latitude : option Q;
  longitude : option Q;
  contributor_name : string;
  created_at : timestamp
}.
End Event.

(** The four tables, each in insertion order.  The integer key of a row is
    its position; no operation of the program reads it. *)
Record database := {
  temples : list Temple.row;
  temple_media : list Media.row;
  content_contributions : list Content.row;
  historical_events : list Event.row
}.

(** The store right after [init_database] on a fresh file. *)
Definition init_database : database :=
  {| temples := []; temple_media := []; content_contributions := [];
     historical_events := [] |}.

Notation "x <- m ;; k" := (Py.bind m (fun x => k))
  (at level 61, m at next level, right associativity).
Notation "m ;;; k" := (Py.bind m (fun _ => k))
  (at level 61, right associativity).

Definition row_count (db : database) : nat :=
  length (temples db) + length (temple_media db)
  + length (content_contributions db) + length (historical_events db).

(* ================================================================= *)
(** ** A [sqlite3] connection

    [sqlite3.connect] opens the file; an [INSERT] run through the cursor
    changes the connection's working copy inside an implicit transaction;
    [conn.commit()] makes the working copy durable; [conn.close()] drops
    whatever was not committed.  Statements can fail: the environment says,
    for the k-th statement run on a connection, what the clock shows and
    whether the engine raises. *)

Module Sqlite.

Record env := {
  clock : nat -> timestamp;        (* CURRENT_TIMESTAMP at statement k *)
  fault : nat -> option string     (* the error statement k raises, if any *)
}.

Record connection := {
  committed : database;
  working : database;
  statements : nat                 (* statements run so far *)
}.

Definition connect (db : database) : connection :=
  {| committed := db; working := db; statements := 0 |}.

Definition cmd (A : Type) : Type := Py.run connection A.

(** [c.execute('INSERT ...', params)]: [ins now] adds the row. *)
Definition execute (e : env) (ins : timestamp -> database -> database)
  : cmd unit :=
  fun c =>
    let k := statements c in
    match fault e k with
    | Some msg =>
        (Py.raised (Py.DatabaseError msg),
         {| committed := committed c; working := working c;
            statements := S k |})
    | None =>
        (Py.returned tt,
         {| committed := committed c;
            working := ins (clock e k) (working c);
            statements := S k |})
    end.

(** [conn.commit()] *)
Definition commit (e : env) : cmd unit :=
  fun c =>
    let k := statements c in
    match fault e k with
    | Some msg =>
        (Py.raised (Py.DatabaseError msg),
         {| committed := committed c; working := working c;
            statements := S k |})
    | None =>
        (Py.returned tt,
         {| committed := working c; working := working c;
            statements := S k |})
    end.

(** [conn.close()]: what stays in the file. *)
Definition close (c : connection) : database := committed c.

(** An environment in which nothing fails. *)
Definition reliable (now : timestamp) : env :=
  {| clock := fun _ => now; fault := fun _ => None |}.

(** An environment whose k-th statement fails. *)
Definition failing_at (k : nat) (now : timestamp) : env :=
  {| clock := fun _ => now;
     fault := fun i => if Nat.eqb i k then Some "disk I/O error" else None |}.

End Sqlite.

(* ================================================================= *)
(** ** [save_contribution] *)

Section Save.

Variable e : Sqlite.env.
Variables (contribution_type title description : string).
Variable location : location_data.
Variable contributor_name : string.

(** [INSERT INTO temples (name, location_address, latitude, longitude,
    description, contributor_name)]; the other columns take their
    defaults. *)
Definition insert_temple (now : timestamp) (db : database) : database :=
  {| temples := temples db ++
       [ {| Temple.name := title;
            Temple.location_address := address location;
            Temple.latitude := latitude location;
            Temple.longitude := longitude location;
            Temple.location_accuracy := None;
            Temple.built_year := None;
            Temple.deity := None;
            Temple.architecture_style := None;
            Temple.description := description;
            Temple.contributor_name := Py.or_str contributor_name "Anonymous";
            Temple.created_at := now |} ];
     temple_media := temple_media db;
     content_contributions := content_contributions db;
     historical_events := historical_events db |}.

(** [INSERT INTO historical_events (event_title, event_description,
    latitude, longitude, contributor_name)] *)
Definition insert_event (now : timestamp) (db : database) : database :=
  {| temples := temples db;
     temple_media := temple_media db;
     content_contributions := content_contributions db;
     historical_events := historical_events db ++
       [ {| Event.temple_id := None;
            Event.event_date := None;
            Event.event_title := title;
            Event.event_description := description;
            Event.latitude := latitude location;
            Event.longitude := longitude location;
            Event.contributor_name := Py.or_str contributor_name "Anonymous";
            Event.created_at := now |} ] |}.

(** The row one uploaded file becomes. *)
Definition content_row (f : uploaded_file) (now : timestamp) : Content.row :=
  let file_data := read f in
  let file_size := length file_data in
  {| Content.title := title;
     Content.content_type := contribution_type;
     Content.description := description;
     Content.latitude := latitude location;
     Content.longitude := longitude location;
     Content.location_address := address location;
     Content.contributor_name := Py.or_str contributor_name "Anonymous";
     Content.file_data := file_data;
     Content.filename := name f;
     Content.file_size := file_size;
     Content.created_at := now |}.

(** [INSERT INTO content_contributions (...)] for one file. *)
Definition insert_content (f : uploaded_file) (now : timestamp)
    (db : database) : database :=
  {| temples := temples db;
     temple_media := temple_media db;
     content_contributions := content_contributions db ++ [content_row f now];
     historical_events := historical_events db |}.

(** [for uploaded_file in uploaded_files: ...; success_count += 1] *)
Fixpoint insert_files (files : list uploaded_file) (success_count : nat)
  : Sqlite.cmd nat :=
  match files with
  | [] => Py.ret success_count
  | f :: rest =>
      Sqlite.execute e (insert_content f) ;;;
      insert_files rest (S success_count)
  end.

(** The three branches of the [try] block; the value is [success_count].
    [if uploaded_files:] holds for a non-empty list. *)
Definition insert_rows (uploaded_files : option (list uploaded_file))
  : Sqlite.cmd nat :=
  if Py.str_in "Temple Information" contribution_type then
    Sqlite.execute e insert_temple ;;; Py.ret 1
  else if Py.str_in "Historical Event" contribution_type then
    Sqlite.execute e insert_event ;;; Py.ret 1
  else
    match uploaded_files with
    | Some (f :: rest) => insert_files (f :: rest) 0
    | _ => Py.ret 0
    end.

(** The whole [try] block: the branches, then [conn.commit()]. *)
Definition save_body (uploaded_files : option (list uploaded_file))
  : Sqlite.cmd nat :=
  success_count <- insert_rows uploaded_files ;;
  Sqlite.commit e ;;;
  Py.ret success_count.

(** [save_contribution]: the store afterwards, the returned
    [success_count], and what the [except] branch shows. *)
Definition save_contribution (db : database)
    (uploaded_files : option (list uploaded_file))
  : database * nat * list ui_event :=
  match save_body uploaded_files (Sqlite.connect db) with
  | (Py.returned success_count, conn) =>
      (Sqlite.close conn, success_count, [])
  | (Py.raised exn, conn) =>
      (Sqlite.close conn, 0,
       [st_error ("Error saving contribution: " ++ Py.str_exn exn)])
  end.

(** How many [INSERT]s the call runs before [conn.commit()]. *)
Definition inserts (uploaded_files : option (list uploaded_file)) : nat :=
  if Py.str_in "Temple Information" contribution_type then 1
  else if Py.str_in "Historical Event" contribution_type then 1
  else match uploaded_files with
       | Some files => length files
       | None => 0
       end.

End Save.

(* ================================================================= *)
(** ** [get_location_from_ip] *)

(** The fields the code reads off the JSON object with [data.get]: a
    missing key and a JSON [null] both read as [None]. *)
Record ip_json := {
  json_latitude : option Q;
  json_longitude : option Q;
  json_city : option string;
  json_region : option string;
  json_country_name : option string
}.

Inductive http_body :=
| not_json                      (* response.json() raises *)
| json_not_object               (* a JSON value without .get: AttributeError *)
| json_object (data : ip_json).

(** What [requests.get(..., timeout=5)] does. *)
Inductive http_result :=
| request_failed                (* timeout, connection error: raises *)
| response (status_code : nat) (body : http_body).

(** The dictionary [get_location_from_ip] returns. *)
Record ip_location := {
  ip_latitude : option Q;
  ip_longitude : option Q;
  ip_city : option string;
  ip_region : option string;
  ip_country : option string
}.

(** The bare [except] turns every exception into [None]. *)
Definition get_location_from_ip (r : http_result) : option ip_location :=
  match r with
  | request_failed => None
  | response status_code body =>
      if Nat.eqb status_code 200 then
        match body with
        | not_json => None
        | json_not_object => None
        | json_object data =>
            Some {| ip_latitude := json_latitude data;
                    ip_longitude := json_longitude data;
                    ip_city := json_city data;
                    ip_region := json_region data;
                    ip_country := json_country_name data |}
        end
      else None
  end.

(* ================================================================= *)
(** ** [location_input_component] *)

(** What [streamlit_geolocation()] hands back: a dictionary whose values may
    be [None]. *)
Record gps_reading := {
  gps_latitude : option Q;
  gps_longitude : option Q;
  gps_accuracy : option Q
}.

(** The radio choice together with what the widgets of that choice yield in
    this run.  A number input yields what the user typed, or its default. *)
Inductive location_method :=
| use_device_gps (location : option gps_reading)
| manual_entry (typed_lat typed_lon : option Q) (set_location : bool)
| ip_based_location (detect : bool) (lookup : http_result).

Record location_inputs := {
  location_method_choice : location_method;
  address_typed : option string       (* None: the field keeps its default *)
}.

(** The running page: the session's location state and what was shown. *)
Record page := {
  session : location_data;
  shown : list ui_event
}.

Definition show (ev : ui_event) : Py.run page unit :=
  fun p => (Py.returned tt, {| session := session p; shown := shown p ++ [ev] |}).

(** [st.session_state.location_data.update(...)] and item assignment. *)
Definition update (f : location_data -> location_data) : Py.run page unit :=
  fun p => (Py.returned tt, {| session := f (session p); shown := shown p |}).

Definition current : Py.run page location_data :=
  fun p => (Py.returned (session p), p).

Definition format_6f (v : option Q) : Py.run page Q :=
  fun p => (Py.format_6f v, p).

(** A widget with a default: the typed value when there is one. *)
Definition widget {A} (typed : option A) (value : A) : A :=
  match typed with
  | Some v => v
  | None => value
  end.

Definition set_coordinates (lat lon : option Q) (tag : string)
    (s : location_data) : location_data :=
  {| latitude := lat; longitude := lon; address := address s;
     method := Some tag |}.

Definition set_ip_location (ip : ip_location) (s : location_data)
  : location_data :=
  {| latitude := ip_latitude ip;
     longitude := ip_longitude ip;
     address := Py.str_of (ip_city ip) ++ ", " ++ Py.str_of (ip_region ip)
                ++ ", " ++ Py.str_of (ip_country ip);
     method := Some "IP" |}.

Definition set_address (a : string) (s : location_data) : location_data :=
  {| latitude := latitude s; longitude := longitude s; address := a;
     method := method s |}.

Definition gps_failed_message : string :=
  "Location access failed. Please allow location access in your browser settings, reload the page, or enter your location manually.".

Definition gps_missing_message : string :=
  "GPS location feature requires streamlit-geolocation package. Please install it or use manual entry.".

Definition ip_failed_message : string :=
  "Could not detect location from IP. Please use manual entry.".

Section LocationComponent.

(** [GEOLOCATION_AVAILABLE], fixed when the module is imported. *)
Variable GEOLOCATION_AVAILABLE : bool.

(** The left column: the branch of the chosen method. *)
Definition acquire (m : location_method) : Py.run page unit :=
  match m with
  | use_device_gps location =>
      if GEOLOCATION_AVAILABLE then
        match location with
        | Some loc =>
            if Py.truthy (gps_latitude loc) then
              update (set_coordinates (gps_latitude loc) (gps_longitude loc) "GPS") ;;;
              lat <- format_6f (gps_latitude loc) ;;
              lon <- format_6f (gps_longitude loc) ;;
              show (st_success_location lat lon)
            else show (st_warning gps_failed_message)
        | None => Py.ret tt
        end
      else show (st_error gps_missing_message)
  | manual_entry typed_lat typed_lon set_location =>
      s <- current ;;
      let manual_lat := widget typed_lat (Py.or_zero (latitude s)) in
      let manual_lon := widget typed_lon (Py.or_zero (longitude s)) in
      if set_location then
        update (set_coordinates (Some manual_lat) (Some manual_lon) "Manual") ;;;
        show (st_success_location manual_lat manual_lon)
      else Py.ret tt
  | ip_based_location detect lookup =>
      if detect then
        match get_location_from_ip lookup with
        | Some ip =>
            if Py.truthy (ip_latitude ip) then
              update (set_ip_location ip) ;;;
              show (st_success_ip (Py.str_of (ip_city ip))
                                  (Py.str_of (ip_country ip))) ;;;
              lat <- format_6f (ip_latitude ip) ;;
              lon <- format_6f (ip_longitude ip) ;;
              show (st_write_coordinates lat lon)
            else show (st_error ip_failed_message)
        | None => show (st_error ip_failed_message)
        end
      else Py.ret tt
  end.

(** The right column: the current location and its map preview. *)
Definition display_current : Py.run page unit :=
  s <- current ;;
  if Py.truthy (latitude s) then
    lat <- format_6f (latitude s) ;;
    show (st_metric_latitude lat) ;;;
    lon <- format_6f (longitude s) ;;
    show (st_metric_longitude lon) ;;;
    if Py.ne_zero (latitude s) || Py.ne_zero (longitude s) then
      show (st_map (latitude s) (longitude s))
    else Py.ret tt
  else Py.ret tt.

(** The address field, and the returned dictionary: the session's own.
    [typed] is the text the widget holds in this run; Streamlit builds the
    widget anew when its default changed in the run (the IP branch rewrote
    the address), and it then holds none. *)
Definition address_input (typed : option string) : Py.run page location_data :=
  s <- current ;;
  update (set_address (widget typed (address s))) ;;;
  current.

Definition location_input_component (inp : location_inputs)
  : Py.run page location_data :=
  acquire (location_method_choice inp) ;;;
  display_current ;;;
  address_input (address_typed inp).

(** The state the component starts from: [st.session_state.location_data],
    installed as unset when the key is missing. *)
Definition initial_page (session_state : option location_data) : page :=
  {| session := widget session_state unset_location; shown := [] |}.

End LocationComponent.

(* ================================================================= *)
(** ** [upload_content_interface] *)

(** The options of the contribution select box. *)
Definition photos_option : string := "📸 Upload Photos/Images".
Definition audio_option : string := "🎵 Share Audio (Prayers, Stories, etc.)".
Definition documents_option : string := "📄 Upload Documents/Texts".
Definition temple_option : string := "🏛️ Add New Temple Information".
Definition event_option : string := "📚 Share Historical Event/Story".

Definition contribution_options : list string :=
  [photos_option; audio_option; documents_option; temple_option; event_option].

(** What the widgets of the form yield in one run of the script. *)
Record form_inputs := {
  contribution_type : string;
  title : string;
  location_in : location_inputs;
  content_description : string;
  contributor_name : string;
  chosen_files : list uploaded_file;   (* the uploader's list, when one is shown *)
  submitted : bool
}.

(** The state that outlives a script run. *)
Record app_state := {
  session_state : option location_data;   (* the 'location_data' key *)
  store : database                         (* temple_heritage.db *)
}.

(** [uploaded_files]: [None] unless the category shows an uploader. *)
Definition uploaded_files_of (contribution_type : string)
    (chosen : list uploaded_file) : option (list uploaded_file) :=
  if Py.str_in "Photos/Images" contribution_type then Some chosen
  else if Py.str_in "Audio" contribution_type then Some chosen
  else if Py.str_in "Documents" contribution_type then Some chosen
  else None.

(** [uploaded_files is None or len(uploaded_files) == 0] *)
Definition no_files (uploaded_files : option (list uploaded_file)) : bool :=
  match uploaded_files with
  | None => true
  | Some files => Nat.eqb (length files) 0
  end.

(** The [errors] list built after the submit button. *)
Definition validation_errors (contribution_type title content_description : string)
    (uploaded_files : option (list uploaded_file)) : list string :=
  (if negb (Py.truthy_str (Py.strip title))
   then ["Title is required"] else [])
  ++ (if negb (Py.truthy_str (Py.strip content_description))
      then ["Content description is required"] else [])
  ++ (if no_files uploaded_files then
        if negb (Py.str_in "Temple Information" contribution_type)
           && negb (Py.str_in "Historical Event" contribution_type)
        then ["Please upload at least one file"] else []
      else []).

(** What the page does with the value of [save_contribution]: a positive
    [success_count] is shown and the session's location is cleared. *)
Definition report_saved (p : page) (saved : database * nat * list ui_event)
  : app_state * list ui_event * Py.outcome unit :=
  match saved with
  | (db, success_count, failure) =>
      if Nat.ltb 0 success_count then
        ({| session_state := Some unset_location; store := db |},
         shown p ++ failure
         ++ [st_success_uploaded success_count; st_balloons],
         Py.returned tt)
      else
        ({| session_state := Some (session p); store := db |},
         shown p ++ failure, Py.returned tt)
  end.

Section UploadPage.

Variable GEOLOCATION_AVAILABLE : bool.
Variable e : Sqlite.env.

(** One run of the upload page: the state it leaves, what it showed, and
    whether the script ended normally. *)
Definition upload_content_interface (st : app_state) (inp : form_inputs)
  : app_state * list ui_event * Py.outcome unit :=
  match location_input_component GEOLOCATION_AVAILABLE (location_in inp)
          (initial_page (session_state st)) with
  | (Py.raised exn, p) =>
      ({| session_state := Some (session p); store := store st |},
       shown p, Py.raised exn)
  | (Py.returned location_data, p) =>
      let uploaded_files :=
        uploaded_files_of (contribution_type inp) (chosen_files inp) in
      if submitted inp then
        match validation_errors (contribution_type inp) (title inp)
                (content_description inp) uploaded_files with
        | [] =>
            report_saved p
              (save_contribution e (contribution_type inp) (title inp)
                 (content_description inp) location_data
                 (contributor_name inp) (store st) uploaded_files)
        | errors =>
            ({| session_state := Some (session p); store := store st |},
             shown p ++ map st_error errors, Py.returned tt)
        end
      else
        ({| session_state := Some (session p); store := store st |},
         shown p, Py.returned tt)
  end.

End UploadPage.

(** The states the application can be in: it starts on a fresh store, pages
    of the upload form run with whatever the user and the environment
    supply, and a new browser session starts without a location. *)
Inductive reachable : app_state -> Prop :=
| reach_start :
    reachable {| session_state := None; store := init_database |}
| reach_upload geo e st inp :
    reachable st ->
    reachable (fst (fst (upload_content_interface geo e st inp)))
| reach_new_session st :
    reachable st ->
    reachable {| session_state := None; store := store st |}.

(* ================================================================= *)
(** ** The read side: [browse_contributions] and [show_heritage_map] *)

Module View.
(** A row of the unioned browsing frame. *)
Record row := {
  title : string;
  content_type : string;
  description : string;
  contributor_name : string;
  latitude : option Q;
  longitude : option Q;
  location_address : option string;
  created_at : timestamp;
  filename : option string
}.
End View.

Module Location.
(** A row of the heritage map query. *)
Record row := {
  title : string;
  type : string;
  latitude : option Q;
  longitude : option Q;
  location_address : option string
}.
End Location.

(** [ORDER BY created_at DESC]: newest first, rows of one instant in
    insertion order. *)
Fixpoint insert_desc {A} (key : A -> timestamp) (x : A) (l : list A) : list A :=
  match l with
  | [] => [x]
  | y :: l' => if Nat.leb (key y) (key x) then x :: l
               else y :: insert_desc key x l'
  end.

Definition order_by_desc {A} (key : A -> timestamp) (l : list A) : list A :=
  fold_right (insert_desc key) [] l.

(** [x.notna()] *)
Definition notna {A} (v : option A) : bool :=
  match v with Some _ => true | None => false end.

Definition view_of_content (r : Content.row) : View.row :=
  {| View.title := Content.title r;
     View.content_type := Content.content_type r;
     View.description := Content.description r;
     View.contributor_name := Content.contributor_name r;
     View.latitude := Content.latitude r;
     View.longitude := Content.longitude r;
     View.location_address := Some (Content.location_address r);
     View.created_at := Content.created_at r;
     View.filename := Some (Content.filename r) |}.

Definition view_of_temple (r : Temple.row) : View.row :=
  {| View.title := Temple.name r;
     View.content_type := "Temple Information";
     View.description := Temple.description r;
     View.contributor_name := Temple.contributor_name r;
     View.latitude := Temple.latitude r;
     View.longitude := Temple.longitude r;
     View.location_address := Some (Temple.location_address r);
     View.created_at := Temple.created_at r;
     View.filename := None |}.

Definition view_of_event (r : Event.row) : View.row :=
  {| View.title := Event.event_title r;
     View.content_type := "Historical Event";
     View.description := Event.event_description r;
     View.contributor_name := Event.contributor_name r;
     View.latitude := Event.latitude r;
     View.longitude := Event.longitude r;
     View.location_address := None;
     View.created_at := Event.created_at r;
     View.filename := None |}.

(** [pd.concat([contributions_df, temples_df, events_df])] *)
Definition all_contributions (db : database) : list View.row :=
  map view_of_content (order_by_desc Content.created_at (content_contributions db))
  ++ map view_of_temple (order_by_desc Temple.created_at (temples db))
  ++ map view_of_event (order_by_desc Event.created_at (historical_events db)).

(** [filtered_df] of [browse_contributions] for the three filter widgets. *)
Definition browse_contributions (db : database)
    (content_filter contributor_filter : string) (location_filter : bool)
  : list View.row :=
  let filtered_df := all_contributions db in
  let filtered_df :=
    if negb (content_filter =? "All") then
      filter (fun r => View.content_type r =? content_filter) filtered_df
    else filtered_df in
  let filtered_df :=
    if negb (contributor_filter =? "All") then
      filter (fun r => View.contributor_name r =? contributor_filter) filtered_df
    else filtered_df in
  if location_filter then
    filter (fun r => notna (View.latitude r)) filtered_df
  else filtered_df.

(** [map_data] of [browse_contributions]: the rows handed to [st.map]. *)
Definition browse_map_data (filtered_df : list View.row) : list View.row :=
  filter (fun r => notna (View.latitude r) && notna (View.longitude r))
         filtered_df.

(** The [UNION ALL] query of [show_heritage_map]. *)
Definition heritage_locations (db : database) : list Location.row :=
  map (fun r => {| Location.title := Temple.name r;
                   Location.type := "Temple";
                   Location.latitude := Temple.latitude r;
                   Location.longitude := Temple.longitude r;
                   Location.location_address := Some (Temple.location_address r) |})
      (filter (fun r => notna (Temple.latitude r) && notna (Temple.longitude r))
              (temples db))
  ++ map (fun r => {| Location.title := Content.title r;
                      Location.type := Content.content_type r;
                      Location.latitude := Content.latitude r;
                      Location.longitude := Content.longitude r;
                      Location.location_address := Some (Content.location_address r) |})
         (filter (fun r => notna (Content.latitude r) && notna (Content.longitude r))
                 (content_contributions db))
  ++ map (fun r => {| Location.title := Event.event_title r;
                      Location.type := "Historical Event";
                      Location.latitude := Event.latitude r;
                      Location.longitude := Event.longitude r;
                      Location.location_address := None |})
         (filter (fun r => notna (Event.latitude r) && notna (Event.longitude r))
                 (historical_events db)).

(* ================================================================= *)
(** ** The other pages: home, heritage map, statistics, temple list *)

Module Home.
(** The four metrics of the home page. *)
Record metrics := {
  temple_count : nat;
  contribution_count : nat;
  event_count : nat;
  total_items : nat
}.
End Home.

(** The three row counts of [show_enhanced_home] and their sum. *)
Definition show_enhanced_home (db : database) : Home.metrics :=
  let temple_count := length (temples db) in
  let contribution_count := length (content_contributions db) in
  let event_count := length (historical_events db) in
  {| Home.temple_count := temple_count;
     Home.contribution_count := contribution_count;
     Home.event_count := event_count;
     Home.total_items := temple_count + contribution_count + event_count |}.

(** The keys of [type_colors], in the order of the dictionary. *)
Definition type_colors : list (string * string) :=
  [("Temple", "#FF0000"); ("Historical Event", "#00FF00");
   ("Photos/Images", "#0000FF"); ("Audio", "#FF00FF");
   ("Documents", "#FFFF00")].

(** What [show_heritage_map] renders: the "no locations" note, or the count,
    the points handed to [st.map] and the legend entries. *)
Inductive heritage_map_page :=
| map_no_locations
| map_locations (count : nat) (points : list (option Q * option Q))
                (legend : list string).

(** [item_type in locations_df['type'].values] *)
Definition type_listed (locations_df : list Location.row) (item_type : string)
  : bool :=
  existsb (fun r => Location.type r =? item_type) locations_df.

Definition show_heritage_map (db : database) : heritage_map_page :=
  match heritage_locations db with
  | [] => map_no_locations
  | locations_df =>
      map_locations
        (length locations_df)
        (map (fun r => (Location.latitude r, Location.longitude r)) locations_df)
        (map fst (filter (fun entry => type_listed locations_df (fst entry))
                         type_colors))
  end.

Module Stats.
(** The row of the [temple_stats] query. *)
Record temple := {
  total_temples : nat;
  temples_with_location : nat;
  temples_with_named_contributors : nat
}.
(** A row of the [content_stats] query. *)
Record content := {
  content_type : string;
  count : nat;
  total_size : nat
}.
(** A row of the [monthly_contributions] query. *)
Record monthly := {
  month : string;
  contributions : nat
}.
End Stats.

(** [COUNT(CASE WHEN c THEN 1 END)] *)
Definition count_when {A} (c : A -> bool) (l : list A) : nat :=
  length (filter c l).

(** [SUM(x)] *)
Definition sum_of {A} (x : A -> nat) (l : list A) : nat :=
  fold_right (fun r acc => x r + acc) 0 l.

(** The keys of a [GROUP BY], each once, in order of first occurrence (SQL
    leaves the order of the groups open). *)
Fixpoint group_keys (keys : list string) : list string :=
  match keys with
  | [] => []
  | k :: rest => k :: filter (fun k' => negb (k' =? k)) (group_keys rest)
  end.

Definition temple_stats (db : database) : Stats.temple :=
  {| Stats.total_temples := length (temples db);
     Stats.temples_with_location :=
       count_when (fun r => notna (Temple.latitude r)) (temples db);
     Stats.temples_with_named_contributors :=
       count_when (fun r => negb (Temple.contributor_name r =? "Anonymous"))
                  (temples db) |}.

(** [GROUP BY content_type]: one row per type.  The groups are listed here
    in the order of their first row; the engine is free to order them
    otherwise, and the statements about them do not depend on the order. *)
Definition content_stats (db : database) : list Stats.content :=
  map (fun k =>
         let group := filter (fun r => Content.content_type r =? k)
                             (content_contributions db) in
         {| Stats.content_type := k;
            Stats.count := length group;
            Stats.total_size := sum_of Content.file_size group |})
      (group_keys (map Content.content_type (content_contributions db))).

(** [ORDER BY month DESC] on the text of the month. *)
Fixpoint insert_month (x : Stats.monthly) (l : list Stats.monthly)
  : list Stats.monthly :=
  match l with
  | [] => [x]
  | y :: l' => if String.leb (Stats.month y) (Stats.month x) then x :: l
               else y :: insert_month x l'
  end.

Section Statistics.

(** [strftime('%Y-%m', created_at)] of the engine. *)
Variable strftime_Ym : timestamp -> string.

Definition monthly_contributions (db : database) : list Stats.monthly :=
  let month_of := fun r => strftime_Ym (Content.created_at r) in
  let groups :=
    map (fun m =>
           {| Stats.month := m;
              Stats.contributions :=
                count_when (fun r => month_of r =? m) (content_contributions db) |})
        (group_keys (map month_of (content_contributions db))) in
  firstn 12 (fold_right insert_month [] groups).

End Statistics.

Module TemplesPage.
(** What [view_temples] works out: the choices of the architecture select
    box, the rows listed as cards, and the rows handed to [st.map]. *)
Record page := {
  architecture_choices : list string;
  found : list Temple.row;
  temples_with_coords : list Temple.row
}.
End TemplesPage.

(** The computed column [has_location] ('Yes' is [true]). *)
Definition has_location (r : Temple.row) : bool :=
  notna (Temple.latitude r) && notna (Temple.longitude r).

(** [dropna()] *)
Fixpoint dropna {A} (l : list (option A)) : list A :=
  match l with
  | [] => []
  | Some x :: l' => x :: dropna l'
  | None :: l' => dropna l'
  end.

(** [df['architecture_style'] == architecture_filter] on one row. *)
Definition style_is (architecture_filter : string) (r : Temple.row) : bool :=
  match Temple.architecture_style r with
  | Some s => s =? architecture_filter
  | None => false
  end.

Section ViewTemples.

(** The row-wise text search of pandas ([astype(str).str.contains] over all
    columns), as a test on a row. *)
Variable row_contains : string -> Temple.row -> bool.

(** [view_temples]: [None] is the early return on an empty table. *)
Definition view_temples (db : database)
    (search_term location_filter architecture_filter : string)
  : option TemplesPage.page :=
  match order_by_desc Temple.created_at (temples db) with
  | [] => None
  | temples_df =>
      let filtered_df := temples_df in
      let filtered_df :=
        if Py.truthy_str search_term then
          filter (row_contains search_term) filtered_df
        else filtered_df in
      let filtered_df :=
        if location_filter =? "With GPS coordinates" then
          filter has_location filtered_df
        else if location_filter =? "Without GPS coordinates" then
          filter (fun r => negb (has_location r)) filtered_df
        else filtered_df in
      let filtered_df :=
        if negb (architecture_filter =? "All") then
          filter (style_is architecture_filter) filtered_df
        else filtered_df in
      Some {| TemplesPage.architecture_choices :=
                "All" :: group_keys
                           (dropna (map Temple.architecture_style temples_df));
              TemplesPage.found := filtered_df;
              TemplesPage.temples_with_coords :=
                filter has_location filtered_df |}
  end.

End ViewTemples.

(** The title of a temple card:
    [temple['location_address'] or 'Location not specified']. *)
Definition temple_card_title (r : Temple.row) : string :=
  "🏛️ " ++ Temple.name r ++ " - "
  ++ Py.or_str (Temple.location_address r) "Location not specified".

(** The states reached when the category always comes from the select box. *)
Inductive form_reachable : app_state -> Prop :=
| form_start :
    form_reachable {| session_state := None; store := init_database |}
| form_upload geo e st inp :
    form_reachable st ->
    In (contribution_type inp) contribution_options ->
    form_reachable (fst (fst (upload_content_interface geo e st inp)))
| form_new_session st :
    form_reachable st ->
    form_reachable {| session_state := None; store := store st |}.

(* ================================================================= *)
(** * Properties *)

Unset Implicit Arguments.

(** ** Shapes used in the statements *)

(** [db'] is [db] with the given rows appended, table by table. *)
Definition added (db db' : database) (ts : list Temple.row)
    (cs : list Content.row) (es : list Event.row) : Prop :=
  temples db' = temples db ++ ts
  /\ temple_media db' = temple_media db
  /\ content_contributions db' = content_contributions db ++ cs
  /\ historical_events db' = historical_events db ++ es.

(** Both coordinates set, or both absent. *)
Definition both_or_neither (lat lon : option Q) : Prop := notna lat = notna lon.

(** Every persisted row has both coordinates or none. *)
Definition rows_paired (db : database) : Prop :=
  Forall (fun r => both_or_neither (Temple.latitude r) (Temple.longitude r))
         (temples db)
  /\ Forall (fun r => both_or_neither (Content.latitude r) (Content.longitude r))
            (content_contributions db)
  /\ Forall (fun r => both_or_neither (Event.latitude r) (Event.longitude r))
            (historical_events db).

(** The rows the file loop writes, starting at statement [k]. *)
Fixpoint content_rows (e : Sqlite.env) (contribution_type title description : string)
    (location : location_data) (contributor_name : string)
    (files : list uploaded_file) (k : nat) : list Content.row :=
  match files with
  | [] => []
  | f :: rest =>
      content_row contribution_type title description location contributor_name
                  f (Sqlite.clock e k)
      :: content_rows e contribution_type title description location
                      contributor_name rest (S k)
  end.

Definition add_content (db : database) (rows : list Content.row) : database :=
  {| temples := temples db;
     temple_media := temple_media db;
     content_contributions := content_contributions db ++ rows;
     historical_events := historical_events db |}.

(** No statement up to and including the k-th fails. *)
Definition no_fault (e : Sqlite.env) (k : nat) : Prop :=
  forall i, i <= k -> Sqlite.fault e i = None.

(** What the store holds after a save in which nothing failed. *)
Definition persisted (e : Sqlite.env) (contribution_type title description : string)
    (location : location_data) (contributor_name : string) (db : database)
    (uploaded_files : option (list uploaded_file)) : database :=
  if Py.str_in "Temple Information" contribution_type then
    insert_temple title description location contributor_name
                  (Sqlite.clock e 0) db
  else if Py.str_in "Historical Event" contribution_type then
    insert_event title description location contributor_name
                 (Sqlite.clock e 0) db
  else
    add_content db
      (content_rows e contribution_type title description location
                    contributor_name
                    (match uploaded_files with
                     | Some files => files
                     | None => []
                     end) 0).

(** The columns every row of one submission shares. *)
Definition shares_metadata (title description : string)
    (location : location_data) (contributor_name : string)
    (r : Content.row) : Prop :=
  Content.title r = title
  /\ Content.description r = description
  /\ Content.latitude r = latitude location
  /\ Content.longitude r = longitude location
  /\ Content.location_address r = address location
  /\ Content.contributor_name r = Py.or_str contributor_name "Anonymous".

(** The name a row carries for what the contributor typed. *)
Definition persisted_contributor (contributor_name : string) : string :=
  if contributor_name =? "" then "Anonymous" else contributor_name.

(** What holds of the session's location between script runs: the
    coordinates are paired, except that a latitude accepted from a reading
    may be waiting for a longitude that never came. *)
Definition session_inv (s : location_data) : Prop :=
  match latitude s, longitude s with
  | None, None => True
  | Some _, Some _ => True
  | Some x, None => Py.truthy_float x = true
  | None, Some _ => False
  end.

Definition app_inv (st : app_state) : Prop :=
  session_inv (widget (session_state st) unset_location)
  /\ rows_paired (store st).

(** The lookups [get_location_from_ip] reports as failed: no reply, a status
    other than 200, a body that is not JSON or not a JSON object. *)
Definition lookup_failed (r : http_result) : bool :=
  match r with
  | request_failed => true
  | response status_code body =>
      negb (Nat.eqb status_code 200)
      || match body with
         | json_object _ => false
         | _ => true
         end
  end.

(** A reply with status 200 whose object has no latitude, or a zero one. *)
Definition lacks_latitude (r : http_result) : bool :=
  match r with
  | response status_code (json_object data) =>
      Nat.eqb status_code 200 && negb (Py.truthy (json_latitude data))
  | _ => false
  end.

Definition sample_png : uploaded_file :=
  {| name := "gopuram.png"; content := ["137"%byte; "P"%byte; "N"%byte; "G"%byte] |}.
Definition sample_jpg : uploaded_file :=
  {| name := "mandapa.jpg"; content := ["255"%byte; "216"%byte] |}.
Definition sample_location : location_data :=
  {| latitude := Some 13.0827%Q; longitude := Some 80.2707%Q;
     address := "Mylapore, Chennai"; method := Some "Manual" |}.

Definition sample_submission : form_inputs :=
  {| contribution_type := event_option;
     title := "Temple Bell Ritual";
     location_in :=
       {| location_method_choice :=
            manual_entry (Some 13.0827%Q) (Some 80.2707%Q) true;
          address_typed := None |};
     content_description := "Annual ritual";
     contributor_name := "";
     chosen_files := [];
     submitted := true |}.

Definition fresh_state : app_state :=
  {| session_state := None; store := init_database |}.

(** A temple row without the optional attributes. *)
Definition temple_bare (r : Temple.row) : Prop :=
  Temple.location_accuracy r = None
  /\ Temple.built_year r = None
  /\ Temple.deity r = None
  /\ Temple.architecture_style r = None.

(** A content row whose recorded size is the length of its payload. *)
Definition sized (r : Content.row) : Prop :=
  Content.file_size r = length (Content.file_data r).

(** What every row written through the form satisfies. *)
Definition store_written (db : database) : Prop :=
  temple_media db = []
  /\ Forall (fun r => temple_bare r /\ Temple.contributor_name r <> "")
            (temples db)
  /\ Forall (fun r => sized r /\ Content.contributor_name r <> "")
            (content_contributions db)
  /\ Forall (fun r => Event.contributor_name r <> "") (historical_events db).

(** The method tag goes with the latitude and is one of the three tags. *)
Definition method_inv (s : location_data) : Prop :=
  (latitude s = None <-> method s = None)
  /\ (method s = None \/ method s = Some "GPS" \/ method s = Some "Manual"
      \/ method s = Some "IP").

(** The number of files a success message announces. *)
Definition announced (ev : ui_event) : nat :=
  match ev with
  | st_success_uploaded success_count => success_count
  | _ => 0
  end.

Definition uploaded_count (events : list ui_event) : nat :=
  sum_of announced events.

(** The three categories that come with an uploader. *)
Definition upload_options : list string :=
  [photos_option; audio_option; documents_option].

Definition sample_reply : http_result :=
  response 200
    (json_object {| json_latitude := Some 13.0827%Q;
                    json_longitude := Some 80.2707%Q;
                    json_city := Some "Chennai";
                    json_region := Some "Tamil Nadu";
                    json_country_name := Some "India" |}).

Definition sample_upload : form_inputs :=
  {| contribution_type := photos_option;
     title := "Gopuram";
     location_in :=
       {| location_method_choice := ip_based_location true sample_reply;
          address_typed := None |};
     content_description := "East tower";
     contributor_name := "Meena";
     chosen_files := [sample_png; sample_jpg];
     submitted := true |}.

Definition sample_store : database :=
  store (fst (fst (upload_content_interface true (Sqlite.reliable 9)
    (fst (fst (upload_content_interface true (Sqlite.reliable 7)
                 fresh_state sample_submission)))
    sample_upload))).

(** A GPS reading is taken over when the package is there and the reading
    has a latitude that counts as true. *)
Definition gps_usable (GEOLOCATION_AVAILABLE : bool)
    (location : option gps_reading) : bool :=
  GEOLOCATION_AVAILABLE
  && match location with
     | Some loc => Py.truthy (gps_latitude loc)
     | None => false
     end.

Definition sample_temple_state : app_state :=
  fst (fst (upload_content_interface true (Sqlite.reliable 11) fresh_state
    {| contribution_type := temple_option;
       title := "Kapaleeshwarar";
       location_in := {| location_method_choice := use_device_gps None;
                         address_typed := None |};
       content_description := "Dravidian temple";
       contributor_name := "";
       chosen_files := [];
       submitted := true |})).

(** A text made of white space only, not all of it ASCII: a no-break space
    (U+00A0), an ideographic space (U+3000) and a space. *)
Definition blank_unicode : string :=
  string_of_list_ascii (map ascii_of_nat [194; 160; 227; 128; 128; 32]).

Definition sample_reading : gps_reading :=
  {| gps_latitude := Some 13.0827%Q;
     gps_longitude := Some 80.2707%Q;
     gps_accuracy := Some 20%Q |}.

(** The Device GPS choice with a reading, the address field left alone. *)
Definition gps_inputs (location : option gps_reading) : location_inputs :=
  {| location_method_choice := use_device_gps location;
     address_typed := None |}.

Definition sample_gps_event : form_inputs :=
  {| contribution_type := event_option;
     title := "Temple Bell Ritual";
     location_in := gps_inputs (Some sample_reading);
     content_description := "Annual ritual";
     contributor_name := "";
     chosen_files := [];
     submitted := true |}.

(** The state after the reading has arrived and before the form is sent. *)
Definition located_session_state : app_state :=
  fst (fst (upload_content_interface true (Sqlite.reliable 7) fresh_state
    {| contribution_type := event_option;
       title := "Temple Bell Ritual";
       location_in := gps_inputs (Some sample_reading);
       content_description := "Annual ritual";
       contributor_name := "";
       chosen_files := [];
       submitted := false |})).

(** A temple sent with a GPS reading taken at latitude 0.0, longitude 0.0. *)
Definition origin_submission : form_inputs :=
  {| contribution_type := temple_option;
     title := "Null Island shrine";
     location_in :=
       gps_inputs (Some {| gps_latitude := Some 0.0%Q;
                           gps_longitude := Some 0.0%Q;
                           gps_accuracy := Some 5%Q |});
     content_description := "On the equator";
     contributor_name := "Meena";
     chosen_files := [];
     submitted := true |}.

(** A content row with a latitude and no longitude, and a store holding it. *)
Definition half_located_row : Content.row :=
  {| Content.title := "Gopuram";
     Content.content_type := photos_option;
     Content.description := "East tower";
     Content.latitude := Some 12.5%Q;
     Content.longitude := None;
     Content.location_address := "";
     Content.contributor_name := "Meena";
     Content.file_data := ["137"%byte; "P"%byte; "N"%byte; "G"%byte];
     Content.filename := "gopuram.png";
     Content.file_size := 4;
     Content.created_at := 7 |}.

Definition half_located_store : database :=
  {| temples := []; temple_media := [];
     content_contributions := [half_located_row];
     historical_events := [] |}.

(** Two temples sent through the form: one with a GPS reading and a named
    contributor, one with neither. *)
Definition two_temples_state : app_state :=
  fst (fst (upload_content_interface true (Sqlite.reliable 12)
    (fst (fst (upload_content_interface true (Sqlite.reliable 11) fresh_state
       {| contribution_type := temple_option;
          title := "Kapaleeshwarar";
          location_in := gps_inputs (Some sample_reading);
          content_description := "Dravidian temple";
          contributor_name := "Meena";
          chosen_files := [];
          submitted := true |})))
    {| contribution_type := temple_option;
       title := "Parthasarathy";
       location_in := gps_inputs None;
       content_description := "Vaishnavite temple";
       contributor_name := "";
       chosen_files := [];
       submitted := true |})).

Lemma add_content_nil db : add_content db [] = db.
Proof. destruct db; unfold add_content; simpl; now rewrite app_nil_r. Qed.

Lemma add_content_app db r rows :
  add_content (add_content db [r]) rows = add_content db (r :: rows).
Proof. unfold add_content; simpl; now rewrite <- app_assoc. Qed.

Lemma insert_content_add ct t d loc who f now db :
  insert_content ct t d loc who f now db
  = add_content db [content_row ct t d loc who f now].
Proof. reflexivity. Qed.

Ltac run_py :=
  unfold Py.bind, Py.ret, Sqlite.execute, Sqlite.commit,
         Sqlite.connect, Sqlite.close; simpl.

(** The statements before the k-th all succeed, or one of them fails. *)
Lemma classic_prefix (e : Sqlite.env) (k : nat) :
  (forall i, i < k -> Sqlite.fault e i = None)
  \/ exists j, j < k /\ Sqlite.fault e j <> None.
Proof.
  induction k as [|k [IH|(j & Hj & Hf)]].
  - left; intros; lia.
  - destruct (Sqlite.fault e k) eqn:E.
    + right; exists k; split; [lia | congruence].
    + left; intros i Hi.
      destruct (Nat.eq_dec i k) as [->|]; [assumption | apply IH; lia].
  - right; exists j; split; [lia | assumption].
Qed.

(** ** The file loop and the transaction *)

Section SaveFacts.

Variable e : Sqlite.env.
Variables (contribution_type title description : string).
Variable location : location_data.
Variable contributor_name : string.

Let rows := content_rows e contribution_type title description location
                         contributor_name.
Let loop := insert_files e contribution_type title description location
                         contributor_name.

(** The loop never touches what is committed. *)
Lemma insert_files_committed files n c :
  Sqlite.committed (snd (loop files n c)) = Sqlite.committed c.
Proof.
  subst loop. revert n c.
  induction files as [|f rest IH]; intros n c; simpl; [reflexivity|].
  run_py. destruct (Sqlite.fault e (Sqlite.statements c)); simpl; [reflexivity|].
  rewrite IH. reflexivity.
Qed.

(** Without a fault the loop writes one row per file into the working copy
    and counts them. *)
Lemma insert_files_ok files : forall n c,
  (forall i, Sqlite.statements c <= i < Sqlite.statements c + length files ->
             Sqlite.fault e i = None) ->
  loop files n c =
    (Py.returned (n + length files),
     {| Sqlite.committed := Sqlite.committed c;
        Sqlite.working := add_content (Sqlite.working c)
                                      (rows files (Sqlite.statements c));
        Sqlite.statements := Sqlite.statements c + length files |}).
Proof.
  subst loop rows.
  induction files as [|f rest IH]; intros n c H; simpl.
  - run_py. rewrite add_content_nil, !Nat.add_0_r. now destruct c.
  - run_py. rewrite (H (Sqlite.statements c)) by (simpl; lia).
    rewrite IH; simpl.
    + rewrite insert_content_add, add_content_app.
      f_equal; [f_equal; lia | f_equal; lia].
    + intros i Hi. apply H. simpl. lia.
Qed.

(** With a fault in its range the loop raises. *)
Lemma insert_files_fault files : forall n c k,
  Sqlite.statements c <= k < Sqlite.statements c + length files ->
  Sqlite.fault e k <> None ->
  exists exn c', loop files n c = (Py.raised exn, c').
Proof.
  subst loop.
  induction files as [|f rest IH]; intros n c k Hk Hf; simpl in *; [lia|].
  run_py. destruct (Sqlite.fault e (Sqlite.statements c)) as [msg|] eqn:E.
  - eauto.
  - assert (k <> Sqlite.statements c) by (intros ->; congruence).
    apply (IH _ _ k); simpl; [lia | assumption].
Qed.

Let stored := persisted e contribution_type title description location
                        contributor_name.
Let branches := insert_rows e contribution_type title description location
                            contributor_name.
Let save := save_contribution e contribution_type title description location
                              contributor_name.
Let count := inserts contribution_type.

Lemma insert_rows_committed uploaded_files c :
  Sqlite.committed (snd (branches uploaded_files c)) = Sqlite.committed c.
Proof.
  subst branches. unfold insert_rows.
  destruct (Py.str_in "Temple Information" contribution_type);
    [run_py; now destruct (Sqlite.fault e (Sqlite.statements c))|].
  destruct (Py.str_in "Historical Event" contribution_type);
    [run_py; now destruct (Sqlite.fault e (Sqlite.statements c))|].
  destruct uploaded_files as [[|f rest]|]; try reflexivity.
  apply insert_files_committed.
Qed.

Lemma insert_rows_ok db uploaded_files :
  (forall i, i < count uploaded_files -> Sqlite.fault e i = None) ->
  branches uploaded_files (Sqlite.connect db)
  = (Py.returned (count uploaded_files),
     {| Sqlite.committed := db;
        Sqlite.working := stored db uploaded_files;
        Sqlite.statements := count uploaded_files |}).
Proof.
  subst branches count stored. unfold insert_rows, inserts, persisted. intros H.
  destruct (Py.str_in "Temple Information" contribution_type);
    [run_py; now rewrite (H 0) by lia|].
  destruct (Py.str_in "Historical Event" contribution_type);
    [run_py; now rewrite (H 0) by lia|].
  destruct uploaded_files as [[|f rest]|];
    try (run_py; now rewrite add_content_nil).
  change (insert_files e contribution_type title description location
                       contributor_name) with loop.
  rewrite insert_files_ok by (intros i Hi; apply H; simpl in *; lia).
  reflexivity.
Qed.

Lemma insert_rows_fault db uploaded_files k :
  k < count uploaded_files ->
  Sqlite.fault e k <> None ->
  exists exn c,
    branches uploaded_files (Sqlite.connect db) = (Py.raised exn, c).
Proof.
  subst branches count. unfold insert_rows, inserts. intros Hk Hf.
  assert (first : k < 1 -> Sqlite.fault e 0 <> None)
    by (intros; now replace 0 with k by lia).
  destruct (Py.str_in "Temple Information" contribution_type).
  { run_py. destruct (Sqlite.fault e 0); [eauto | now elim first]. }
  destruct (Py.str_in "Historical Event" contribution_type).
  { run_py. destruct (Sqlite.fault e 0); [eauto | now elim first]. }
  destruct uploaded_files as [[|f rest]|]; simpl in Hk; try lia.
  apply (insert_files_fault (f :: rest) 0 (Sqlite.connect db) k);
    simpl; [lia | assumption].
Qed.

(** A save in which no statement fails commits every row and returns the
    number of [INSERT]s it ran. *)
Lemma save_contribution_ok db uploaded_files :
  no_fault e (count uploaded_files) ->
  save db uploaded_files
  = (stored db uploaded_files, count uploaded_files, []).
Proof.
  subst save. unfold no_fault, save_contribution, save_body. intros H.
  unfold Py.bind at 1.
  change (insert_rows e contribution_type title description location
                      contributor_name) with branches.
  rewrite insert_rows_ok by (intros; apply H; lia).
  run_py. now rewrite (H (count uploaded_files)) by lia.
Qed.

(** A save in which a statement fails leaves the store as it was and
    returns 0. *)
Lemma save_contribution_fault db uploaded_files k :
  k <= count uploaded_files ->
  Sqlite.fault e k <> None ->
  exists msg, save db uploaded_files = (db, 0, [st_error msg]).
Proof.
  subst save. unfold save_contribution, save_body. intros Hk Hf.
  unfold Py.bind at 1.
  change (insert_rows e contribution_type title description location
                      contributor_name) with branches.
  destruct (classic_prefix e (count uploaded_files)) as [Hall|(j & Hj & Hfj)].
  - rewrite insert_rows_ok by assumption. run_py.
    assert (k = count uploaded_files) as <-.
    { destruct (Nat.eq_dec k (count uploaded_files)); [assumption|].
      elim Hf. apply Hall. lia. }
    destruct (Sqlite.fault e k); simpl; [eauto | congruence].
  - destruct (insert_rows_fault db uploaded_files j Hj Hfj) as (exn & c & L).
    pose proof (insert_rows_committed uploaded_files (Sqlite.connect db)) as HC.
    rewrite L in HC |- *. unfold Sqlite.close. simpl in *. rewrite HC. eauto.
Qed.

(** Either way: all rows and their count, or nothing and 0. *)
Lemma save_contribution_cases db uploaded_files :
  save db uploaded_files
  = (stored db uploaded_files, count uploaded_files, [])
  \/ exists msg, save db uploaded_files = (db, 0, [st_error msg]).
Proof.
  destruct (classic_prefix e (S (count uploaded_files))) as [Hall|(j & Hj & Hfj)].
  - left. apply save_contribution_ok. intros i Hi. apply Hall. lia.
  - right. apply (save_contribution_fault db uploaded_files j); [lia|assumption].
Qed.

End SaveFacts.

(** ** The rows of a multi-file save *)

Section ContentRows.

Variable e : Sqlite.env.
Variables (ct t d : string) (loc : location_data) (who : string).

Lemma content_rows_length files k :
  length (content_rows e ct t d loc who files k) = length files.
Proof. revert k; induction files; intros; simpl; auto. Qed.

Lemma content_rows_metadata files k :
  Forall (shares_metadata t d loc who) (content_rows e ct t d loc who files k).
Proof.
  revert k; induction files; intros; simpl; constructor; auto.
  repeat split.
Qed.

Lemma content_rows_filename files k :
  map Content.filename (content_rows e ct t d loc who files k) = map name files.
Proof. revert k; induction files; intros; simpl; f_equal; auto. Qed.

Lemma content_rows_file_data files k :
  map Content.file_data (content_rows e ct t d loc who files k)
  = map content files.
Proof. revert k; induction files; intros; simpl; f_equal; auto. Qed.

Lemma content_rows_file_size files k :
  Forall (fun r => Content.file_size r = length (Content.file_data r))
         (content_rows e ct t d loc who files k).
Proof. revert k; induction files; intros; simpl; constructor; auto. Qed.

Lemma content_rows_coordinates files k :
  Forall (fun r => Content.latitude r = latitude loc
                   /\ Content.longitude r = longitude loc)
         (content_rows e ct t d loc who files k).
Proof. revert k; induction files; intros; simpl; constructor; auto. Qed.

End ContentRows.

Lemma added_insert_temple t d loc who now db :
  added db (insert_temple t d loc who now db)
        [ {| Temple.name := t;
             Temple.location_address := address loc;
             Temple.latitude := latitude loc;
             Temple.longitude := longitude loc;
             Temple.location_accuracy := None;
             Temple.built_year := None;
             Temple.deity := None;
             Temple.architecture_style := None;
             Temple.description := d;
             Temple.contributor_name := Py.or_str who "Anonymous";
             Temple.created_at := now |} ] [] [].
Proof. unfold added, insert_temple; simpl; now rewrite !app_nil_r. Qed.

Lemma added_insert_event t d loc who now db :
  added db (insert_event t d loc who now db) [] []
        [ {| Event.temple_id := None;
             Event.event_date := None;
             Event.event_title := t;
             Event.event_description := d;
             Event.latitude := latitude loc;
             Event.longitude := longitude loc;
             Event.contributor_name := Py.or_str who "Anonymous";
             Event.created_at := now |} ].
Proof. unfold added, insert_event; simpl; now rewrite !app_nil_r. Qed.

Lemma added_add_content db rows : added db (add_content db rows) [] rows [].
Proof. unfold added, add_content; simpl; now rewrite !app_nil_r. Qed.

(** C1. A file-bearing submission with N attached files persists exactly N
    rows in [content_contributions], one per file, all with the submission's
    title, description, latitude, longitude, address and contributor; the
    call returns N, and N is the count the page shows. *)
Theorem save_contribution_one_row_per_file
    (e : Sqlite.env) (contribution_type title description : string)
    (location : location_data) (contributor_name : string)
    (db : database) (files : list uploaded_file) (p : page) :
  Py.str_in "Temple Information" contribution_type = false ->
  Py.str_in "Historical Event" contribution_type = false ->
  no_fault e (length files) ->
  exists db' rows,
    save_contribution e contribution_type title description location
                      contributor_name db (Some files)
    = (db', length files, [])
    /\ added db db' [] rows []
    /\ length rows = length files
    /\ Forall (shares_metadata title description location contributor_name) rows
    /\ map Content.filename rows = map name files
    /\ map Content.file_data rows = map content files
    /\ (0 < length files ->
        report_saved p
          (save_contribution e contribution_type title description location
                             contributor_name db (Some files))
        = ({| session_state := Some unset_location; store := db' |},
           shown p ++ [st_success_uploaded (length files); st_balloons],
           Py.returned tt)).
Proof.
  intros Ht He Hok.
  pose proof (save_contribution_ok e contribution_type title description
                location contributor_name db (Some files)) as S.
  unfold inserts, persisted in S. rewrite Ht, He in S.
  specialize (S Hok).
  eexists; eexists. split; [exact S|].
  split; [apply added_add_content|].
  split; [apply content_rows_length|].
  split; [apply content_rows_metadata|].
  split; [apply content_rows_filename|].
  split; [apply content_rows_file_data|].
  intros Hpos. rewrite S. unfold report_saved.
  destruct (length files); [lia | reflexivity].
Qed.

Lemma save_contribution_one_row_per_file_witness :
  exists db' rows,
    save_contribution (Sqlite.reliable 7) photos_option "Gopuram" "East tower"
                      sample_location "Meena" init_database
                      (Some [sample_png; sample_jpg])
    = (db', 2, [])
    /\ added init_database db' [] rows []
    /\ length rows = 2.
Proof.
  destruct (save_contribution_one_row_per_file
              (Sqlite.reliable 7) photos_option
              "Gopuram" "East tower" sample_location "Meena" init_database
              [sample_png; sample_jpg]
              {| session := sample_location; shown := [] |})
    as (db' & rows & S & A & L & _).
  - reflexivity.
  - reflexivity.
  - intros i _. reflexivity.
  - exists db', rows. split; [exact S | split; [exact A | exact L]].
Defined.

(** ** Failure of the storage write *)

(** C4. When a statement of the submission fails, be it one of the
    [INSERT]s of the file loop or the [COMMIT], no row of the submission
    stays in the store and the caller is handed the count 0: the page shows
    the error and no success message. *)
Theorem save_contribution_atomic
    (e : Sqlite.env) (contribution_type title description : string)
    (location : location_data) (contributor_name : string)
    (db : database) (uploaded_files : option (list uploaded_file))
    (k : nat) (p : page) :
  k <= inserts contribution_type uploaded_files ->
  Sqlite.fault e k <> None ->
  let saved := save_contribution e contribution_type title description
                                 location contributor_name db uploaded_files in
  fst (fst saved) = db
  /\ snd (fst saved) = 0
  /\ exists msg,
       report_saved p saved
       = ({| session_state := Some (session p); store := db |},
          shown p ++ [st_error msg], Py.returned tt).
Proof.
  intros Hk Hf saved.
  destruct (save_contribution_fault e contribution_type title description
              location contributor_name db uploaded_files k Hk Hf) as (msg & S).
  subst saved. rewrite S. simpl. repeat split. now exists msg.
Qed.

Lemma save_contribution_atomic_witness :
  let saved := save_contribution (Sqlite.failing_at 1 7) photos_option
                 "Gopuram" "East tower" sample_location "Meena" init_database
                 (Some [sample_png; sample_jpg]) in
  fst (fst saved) = init_database /\ snd (fst saved) = 0.
Proof.
  destruct (save_contribution_atomic (Sqlite.failing_at 1 7) photos_option
              "Gopuram" "East tower" sample_location "Meena" init_database
              (Some [sample_png; sample_jpg]) 1
              {| session := sample_location; shown := [] |})
    as (Hdb & Hn & _).
  - vm_compute. lia.
  - vm_compute. discriminate.
  - split; assumption.
Defined.

(** ** Temple and event submissions *)

(** C10. A submission of the Temple Information or of the Historical Event
    category is saved without looking at the attached files: whatever they
    are, the call writes one row to the table of the category, nothing to
    the tables that hold file data, and returns 1. *)
Theorem save_contribution_ignores_files
    (e : Sqlite.env) (contribution_type title description : string)
    (location : location_data) (contributor_name : string)
    (db : database) (uploaded_files : option (list uploaded_file)) :
  Py.str_in "Temple Information" contribution_type
  || Py.str_in "Historical Event" contribution_type = true ->
  no_fault e 1 ->
  exists db' ts es,
    save_contribution e contribution_type title description location
                      contributor_name db uploaded_files
    = (db', 1, [])
    /\ (forall other_files,
          save_contribution e contribution_type title description location
                            contributor_name db other_files
          = (db', 1, []))
    /\ added db db' ts [] es
    /\ (if Py.str_in "Temple Information" contribution_type
        then length ts = 1 /\ es = []
        else ts = [] /\ length es = 1)
    /\ row_count db' = row_count db + 1.
Proof.
  intros Hcat Hok.
  assert (S : forall files,
    save_contribution e contribution_type title description location
                      contributor_name db files
    = (persisted e contribution_type title description location
                 contributor_name db None, 1, [])).
  { intros files.
    pose proof (save_contribution_ok e contribution_type title description
                  location contributor_name db files) as S.
    unfold inserts, persisted in *.
    destruct (Py.str_in "Temple Information" contribution_type);
      [exact (S Hok)|].
    destruct (Py.str_in "Historical Event" contribution_type);
      [exact (S Hok) | discriminate]. }
  unfold persisted in S.
  destruct (Py.str_in "Temple Information" contribution_type).
  - do 3 eexists. split; [apply S|]. split; [apply S|].
    split; [apply added_insert_temple|].
    unfold row_count; simpl. rewrite length_app; simpl.
    repeat split; lia.
  - destruct (Py.str_in "Historical Event" contribution_type); [|discriminate].
    do 3 eexists. split; [apply S|]. split; [apply S|].
    split; [apply added_insert_event|].
    unfold row_count; simpl. rewrite length_app; simpl.
    repeat split; lia.
Qed.

Lemma save_contribution_ignores_files_witness :
  exists db',
    save_contribution (Sqlite.reliable 7) temple_option "Kapaleeshwarar"
                      "Dravidian temple" sample_location "" init_database
                      (Some [sample_png; sample_jpg])
    = (db', 1, [])
    /\ content_contributions db' = [] /\ length (temples db') = 1.
Proof.
  destruct (save_contribution_ignores_files (Sqlite.reliable 7) temple_option
              "Kapaleeshwarar" "Dravidian temple" sample_location ""
              init_database (Some [sample_png; sample_jpg]))
    as (db' & ts & es & S & _ & (Ht & _ & Hc & _) & Hlen & _).
  - reflexivity.
  - intros i _. reflexivity.
  - exists db'. split; [exact S|]. split; [exact Hc|].
    rewrite Ht. simpl in Hlen |- *. apply Hlen.
Defined.

(** ** The contributor's name *)

Lemma or_str_anonymous who :
  Py.or_str who "Anonymous" = persisted_contributor who.
Proof. now destruct who. Qed.

(** C5, as the code has it.  For each of the three entity types, every row a
    save writes carries "Anonymous" when the contributor field was left
    empty, and otherwise the contributor's text exactly as typed (a name
    made of white space included). *)
Theorem contributor_name_persisted
    (e : Sqlite.env) (contribution_type title description : string)
    (location : location_data) (contributor_name : string)
    (db : database) (uploaded_files : option (list uploaded_file)) :
  no_fault e (inserts contribution_type uploaded_files) ->
  exists db' ts cs es,
    save_contribution e contribution_type title description location
                      contributor_name db uploaded_files
    = (db', inserts contribution_type uploaded_files, [])
    /\ added db db' ts cs es
    /\ length ts + length cs + length es
       = inserts contribution_type uploaded_files
    /\ Forall (fun r => Temple.contributor_name r
                        = persisted_contributor contributor_name) ts
    /\ Forall (fun r => Content.contributor_name r
                        = persisted_contributor contributor_name) cs
    /\ Forall (fun r => Event.contributor_name r
                        = persisted_contributor contributor_name) es.
Proof.
  intros Hok.
  rewrite (save_contribution_ok e contribution_type title description
             location contributor_name db uploaded_files Hok).
  unfold persisted, inserts.
  destruct (Py.str_in "Temple Information" contribution_type).
  { do 4 eexists. split; [reflexivity|].
    split; [apply added_insert_temple|].
    repeat split; auto. constructor; [apply or_str_anonymous | constructor]. }
  destruct (Py.str_in "Historical Event" contribution_type).
  { do 4 eexists. split; [reflexivity|].
    split; [apply added_insert_event|].
    repeat split; auto. constructor; [apply or_str_anonymous | constructor]. }
  do 4 eexists. split; [reflexivity|].
  split; [apply added_add_content|].
  split; [simpl; rewrite content_rows_length; destruct uploaded_files; simpl; lia|].
  repeat split; auto.
  eapply Forall_impl; [|apply content_rows_metadata].
  intros r (_ & _ & _ & _ & _ & H). now rewrite H, or_str_anonymous.
Qed.

Lemma contributor_name_persisted_witness :
  exists db' ts cs es,
    save_contribution (Sqlite.reliable 7) event_option "Temple Bell Ritual"
                      "Annual ritual" sample_location "" init_database None
    = (db', 1, [])
    /\ added init_database db' ts cs es
    /\ length ts + length cs + length es = 1
    /\ Forall (fun r => Temple.contributor_name r = "Anonymous") ts
    /\ Forall (fun r => Content.contributor_name r = "Anonymous") cs
    /\ Forall (fun r => Event.contributor_name r = "Anonymous") es.
Proof.
  apply (contributor_name_persisted (Sqlite.reliable 7) event_option
           "Temple Bell Ritual" "Annual ritual" sample_location ""
           init_database None).
  intros i _. reflexivity.
Defined.

(** A contributor name made of white space is stored as typed in all three
    tables, not as "Anonymous". *)
Lemma blank_contributor_kept_verbatim :
  Py.strip "   " = ""
  /\ map Temple.contributor_name
       (temples (fst (fst (save_contribution (Sqlite.reliable 7) temple_option
          "Kapaleeshwarar" "Dravidian temple" sample_location "   "
          init_database None)))) = ["   "]
  /\ map Event.contributor_name
       (historical_events (fst (fst (save_contribution (Sqlite.reliable 7)
          event_option "Temple Bell Ritual" "Annual ritual" sample_location
          "   " init_database None)))) = ["   "]
  /\ map Content.contributor_name
       (content_contributions (fst (fst (save_contribution (Sqlite.reliable 7)
          photos_option "Gopuram" "East tower" sample_location "   "
          init_database (Some [sample_png]))))) = ["   "]
  /\ "   " <> "Anonymous".
Proof. repeat split; try reflexivity. discriminate. Qed.

(* ================================================================= *)
(** ** The location component *)

Ltac run_page :=
  unfold location_input_component, acquire, display_current, address_input,
         show, update, current, format_6f, Py.format_6f, Py.bind, Py.ret,
         widget, set_coordinates, set_ip_location, set_address in *;
  simpl in *.

Lemma truthy_some v : Py.truthy v = true -> exists x, v = Some x /\ Py.truthy_float x = true.
Proof. destruct v as [x|]; simpl; [eauto | discriminate]. Qed.

Section LocationFacts.

Variable geo : bool.

(** The left column keeps the session's invariant, raise or not. *)
Lemma acquire_inv m p :
  session_inv (session p) -> session_inv (session (snd (acquire geo m p))).
Proof.
  intros H. destruct m as [location|typed_lat typed_lon set|detect lookup];
    unfold acquire.
  - destruct geo; [|exact H].
    destruct location as [loc|]; [|exact H].
    destruct (Py.truthy (gps_latitude loc)) eqn:T; [|exact H].
    destruct (truthy_some _ T) as (x & E & Tx).
    run_page. rewrite E in *. simpl.
    destruct (gps_longitude loc) as [y|]; unfold session_inv; simpl; auto.
  - run_page. destruct set; [exact I | exact H].
  - destruct detect; [|exact H].
    destruct (get_location_from_ip lookup) as [ip|]; [|exact H].
    destruct (Py.truthy (ip_latitude ip)) eqn:T; [|exact H].
    destruct (truthy_some _ T) as (x & E & Tx).
    run_page. rewrite E in *. simpl.
    destruct (ip_longitude ip) as [y|]; unfold session_inv; simpl; auto.
Qed.

(** The right column changes nothing in the session. *)
Lemma display_current_session p :
  session (snd (display_current p)) = session p.
Proof.
  destruct p as [[[x|] [y|] a tag] ev]; run_page; try reflexivity;
    destruct (Py.truthy_float x); simpl; try reflexivity.
  destruct (negb (Qeq_bool x 0) || negb (Qeq_bool y 0)); reflexivity.
Qed.

(** The right column ends normally only on paired coordinates. *)
Lemma display_current_returned p p' :
  session_inv (session p) ->
  display_current p = (Py.returned tt, p') ->
  both_or_neither (latitude (session p)) (longitude (session p)).
Proof.
  unfold session_inv, both_or_neither.
  destruct p as [[[x|] [y|] a tag] ev]; run_page; intros H; try reflexivity;
    try contradiction.
  unfold Py.truthy; rewrite H. simpl. discriminate.
Qed.

(** A whole run keeps the session's invariant. *)
Lemma location_input_component_inv inp p :
  session_inv (session p) ->
  session_inv (session (snd (location_input_component geo inp p))).
Proof.
  intros H. unfold location_input_component.
  pose proof (acquire_inv (location_method_choice inp) p H) as H1.
  unfold Py.bind at 1.
  destruct (acquire geo (location_method_choice inp) p) as [[[]|exn] p1];
    simpl in *; [|assumption].
  pose proof (display_current_session p1) as H2.
  unfold Py.bind at 1.
  destruct (display_current p1) as [[[]|exn] p2]; simpl in *;
    [|now rewrite H2].
  rewrite H2. exact H1.
Qed.

(** The dictionary a run returns is the session's own, and its
    coordinates are paired. *)
Lemma location_input_component_returned inp p ld p' :
  session_inv (session p) ->
  location_input_component geo inp p = (Py.returned ld, p') ->
  ld = session p'
  /\ both_or_neither (latitude ld) (longitude ld).
Proof.
  intros H. unfold location_input_component.
  pose proof (acquire_inv (location_method_choice inp) p H) as H1.
  unfold Py.bind at 1.
  destruct (acquire geo (location_method_choice inp) p) as [[[]|exn] p1];
    simpl in *; [|discriminate].
  unfold Py.bind at 1.
  destruct (display_current p1) as [[[]|exn] p2] eqn:D; simpl in *;
    [|discriminate].
  pose proof (display_current_returned p1 p2 H1 D) as H2.
  pose proof (display_current_session p1) as H3. rewrite D in H3. simpl in H3.
  intros E. inversion E; subst; clear E.
  simpl. rewrite H3. split; [reflexivity | exact H2].
Qed.

End LocationFacts.

(* ================================================================= *)
(** ** What every reachable state satisfies *)

Lemma rows_paired_persisted e ct t d loc who db files :
  rows_paired db ->
  both_or_neither (latitude loc) (longitude loc) ->
  rows_paired (persisted e ct t d loc who db files).
Proof.
  intros (Ht & Hc & He) Hloc. unfold persisted, rows_paired.
  destruct (Py.str_in "Temple Information" ct); simpl.
  { repeat split; auto. apply Forall_app; split; auto. }
  destruct (Py.str_in "Historical Event" ct); simpl.
  { repeat split; auto. apply Forall_app; split; auto. }
  repeat split; auto. apply Forall_app; split; auto.
  eapply Forall_impl; [|apply content_rows_coordinates].
  intros r (-> & ->). exact Hloc.
Qed.

Lemma rows_paired_save e ct t d loc who db files :
  rows_paired db ->
  both_or_neither (latitude loc) (longitude loc) ->
  rows_paired (fst (fst (save_contribution e ct t d loc who db files))).
Proof.
  intros Hdb Hloc.
  destruct (save_contribution_cases e ct t d loc who db files) as [S|(msg & S)];
    rewrite S; simpl; [now apply rows_paired_persisted | assumption].
Qed.

Lemma report_saved_state p saved :
  let st' := fst (fst (report_saved p saved)) in
  store st' = fst (fst saved)
  /\ (session_state st' = Some unset_location
      \/ session_state st' = Some (session p)).
Proof.
  destruct saved as [[db n] failure]. unfold report_saved.
  destruct (Nat.ltb 0 n); simpl; auto.
Qed.

(** A run of the upload page keeps the invariant. *)
Lemma upload_content_interface_inv geo e st inp :
  app_inv st -> app_inv (fst (fst (upload_content_interface geo e st inp))).
Proof.
  intros (Hs & Hdb). unfold upload_content_interface.
  pose proof (location_input_component_inv geo (location_in inp)
                (initial_page (session_state st)) Hs) as Hinv.
  destruct (location_input_component geo (location_in inp)
              (initial_page (session_state st))) as [[ld|exn] p] eqn:L;
    simpl in Hinv; [|split; assumption].
  destruct (location_input_component_returned geo (location_in inp)
              (initial_page (session_state st)) ld p Hs L) as (-> & Hld).
  destruct (submitted inp); [|split; assumption].
  destruct (validation_errors _ _ _ _); [|split; assumption].
  match goal with |- app_inv (fst (fst (report_saved p ?s))) =>
    destruct (report_saved_state p s) as (Hstore & Hsess);
    split; [|rewrite Hstore; now apply rows_paired_save]
  end.
  destruct Hsess as [-> | ->]; [exact I | exact Hinv].
Qed.

Lemma reachable_inv st : reachable st -> app_inv st.
Proof.
  induction 1 as [|geo e st inp _ IH|st _ IH].
  - split; [exact I | repeat split; constructor].
  - now apply upload_content_interface_inv.
  - split; [exact I | apply IH].
Qed.

(** C2, as the code has it.  In every state the application reaches, each
    persisted row has latitude and longitude both set or both absent, and
    so has every location the resolver returns to the form, whatever the
    GPS reading, the manual entry or the IP lookup was. *)
Theorem resolver_output_paired (st : app_state) :
  reachable st ->
  rows_paired (store st)
  /\ forall geo inp ld p,
       location_input_component geo inp (initial_page (session_state st))
       = (Py.returned ld, p) ->
       both_or_neither (latitude ld) (longitude ld).
Proof.
  intros R. destruct (reachable_inv st R) as (Hs & Hdb). split; [exact Hdb|].
  intros geo inp ld p L.
  now destruct (location_input_component_returned geo inp
                  (initial_page (session_state st)) ld p Hs L).
Qed.

Lemma resolver_output_paired_witness :
  rows_paired
    (store (fst (fst (upload_content_interface true (Sqlite.reliable 7)
                        fresh_state sample_submission)))).
Proof.
  apply (resolver_output_paired
           (fst (fst (upload_content_interface true (Sqlite.reliable 7)
                        fresh_state sample_submission)))).
  apply reach_upload. apply reach_start.
Defined.

(** A GPS reading that carries a latitude and no longitude is taken over
    before the run stops on formatting it: the session is left with exactly
    one coordinate. *)
Lemma half_set_session_reachable :
  exists st s,
    reachable st
    /\ session_state st = Some s
    /\ latitude s = Some 12.5%Q
    /\ longitude s = None
    /\ method s = Some "GPS".
Proof.
  exists (fst (fst (upload_content_interface true (Sqlite.reliable 7) fresh_state
            {| contribution_type := photos_option;
               title := "Gopuram";
               location_in :=
                 {| location_method_choice :=
                      use_device_gps
                        (Some {| gps_latitude := Some 12.5%Q;
                                 gps_longitude := None;
                                 gps_accuracy := Some 20%Q |});
                    address_typed := None |};
               content_description := "East tower";
               contributor_name := "Meena";
               chosen_files := [sample_png];
               submitted := true |}))).
  eexists. split; [apply reach_upload, reach_start|].
  vm_compute. repeat split.
Qed.

(* ================================================================= *)
(** ** Failed IP lookups *)

(** C6, as the code has it.  A lookup that times out, answers with a status
    other than 200, or sends a body that is not a JSON object makes
    [get_location_from_ip] return [None]; the component then shows the
    failure message, raises nothing in that branch, and leaves latitude,
    longitude and method tag of the session as they were.  The same holds
    of the session for a JSON object without a non-zero latitude. *)
Theorem ip_failure_leaves_location
    (geo : bool) (r : http_result) (p : page) (typed : option string) :
  lookup_failed r || lacks_latitude r = true ->
  (lookup_failed r = true -> get_location_from_ip r = None)
  /\ acquire geo (ip_based_location true r) p
     = (Py.returned tt,
        {| session := session p;
           shown := shown p ++ [st_error ip_failed_message] |})
  /\ let p' := snd (location_input_component geo
                      {| location_method_choice := ip_based_location true r;
                         address_typed := typed |} p) in
     latitude (session p') = latitude (session p)
     /\ longitude (session p') = longitude (session p)
     /\ method (session p') = method (session p).
Proof.
  intros H.
  assert (A : acquire geo (ip_based_location true r) p
              = (Py.returned tt,
                 {| session := session p;
                    shown := shown p ++ [st_error ip_failed_message] |})).
  { unfold acquire, get_location_from_ip.
    destruct r as [|status body]; [reflexivity|]. simpl in H.
    destruct (Nat.eqb status 200); [|reflexivity].
    destruct body as [| |data]; try reflexivity. simpl in *.
    destruct (Py.truthy (json_latitude data)); [discriminate | reflexivity]. }
  split; [|split; [exact A|]].
  - intros F. destruct r as [|status body]; [reflexivity|]. simpl in *.
    destruct (Nat.eqb status 200); [|reflexivity].
    destruct body; try reflexivity. discriminate.
  - intros p'. subst p'.
    remember (snd (location_input_component geo _ p)) as p' eqn:E.
    unfold location_input_component in E. unfold Py.bind at 1 in E.
    cbn [location_method_choice address_typed] in E.
    rewrite A in E. unfold Py.bind at 1 in E.
    pose proof (display_current_session
                  {| session := session p;
                     shown := shown p ++ [st_error ip_failed_message] |}) as D.
    destruct (display_current _) as [[[]|exn] p2]; simpl in *; subst p';
      simpl; rewrite D; auto.
Qed.

Lemma ip_failure_leaves_location_witness :
  get_location_from_ip (response 500 not_json) = None
  /\ acquire true (ip_based_location true (response 500 not_json))
             {| session := sample_location; shown := [] |}
     = (Py.returned tt,
        {| session := sample_location;
           shown := [st_error ip_failed_message] |}).
Proof.
  destruct (ip_failure_leaves_location true (response 500 not_json)
              {| session := sample_location; shown := [] |} None)
    as (N & A & _).
  - reflexivity.
  - split; [apply N; reflexivity | exact A].
Defined.

(** A reply with status 200 whose body holds a latitude and none of the
    other expected fields is not reported as a failure: the session takes
    the latitude and the IP tag, and the branch then raises. *)
Lemma latitude_only_reply_accepted :
  let r := response 200
             (json_object {| json_latitude := Some 12.5%Q;
                             json_longitude := None;
                             json_city := None;
                             json_region := None;
                             json_country_name := None |}) in
  get_location_from_ip r <> None
  /\ acquire true (ip_based_location true r) (initial_page None)
     = (Py.raised Py.TypeError,
        {| session := {| latitude := Some 12.5%Q; longitude := None;
                         address := "None, None, None";
                         method := Some "IP" |};
           shown := [st_success_ip "None" "None"] |}).
Proof. split; [discriminate | reflexivity]. Qed.

(* ================================================================= *)
(** ** Validation *)

(** C3. A submission whose title and description are blank after trimming
    (white space of any kind), with no file, in a category that needs files,
    is answered with the three error messages together, and the store is
    left as it was.  The page result is stated for the Device GPS choice,
    the branch of the location component that runs without a button. *)
Theorem blank_submission_three_errors
    (geo : bool) (e : Sqlite.env) (st : app_state) (inp : form_inputs) :
  Py.strip (title inp) = "" ->
  Py.strip (content_description inp) = "" ->
  Py.str_in "Temple Information" (contribution_type inp) = false ->
  Py.str_in "Historical Event" (contribution_type inp) = false ->
  chosen_files inp = [] ->
  submitted inp = true ->
  let errors :=
    validation_errors (contribution_type inp) (title inp)
      (content_description inp)
      (uploaded_files_of (contribution_type inp) (chosen_files inp)) in
  errors = ["Title is required"; "Content description is required";
            "Please upload at least one file"]
  /\ length errors = 3
  /\ store (fst (fst (upload_content_interface geo e st inp))) = store st
  /\ forall location ld p,
       location_method_choice (location_in inp) = use_device_gps location ->
       location_input_component geo (location_in inp)
                                (initial_page (session_state st))
       = (Py.returned ld, p) ->
       upload_content_interface geo e st inp
       = ({| session_state := Some (session p); store := store st |},
          shown p ++ map st_error errors, Py.returned tt).
Proof.
  intros Ht Hd Hnt Hne Hf Hs errors.
  assert (E : errors = ["Title is required"; "Content description is required";
                        "Please upload at least one file"]).
  { subst errors. unfold validation_errors, uploaded_files_of.
    rewrite Ht, Hd, Hnt, Hne, Hf. simpl.
    destruct (Py.str_in "Photos/Images" _); [reflexivity|].
    destruct (Py.str_in "Audio" _); [reflexivity|].
    destruct (Py.str_in "Documents" _); reflexivity. }
  assert (U : forall ld p,
    location_input_component geo (location_in inp)
                             (initial_page (session_state st))
    = (Py.returned ld, p) ->
    upload_content_interface geo e st inp
    = ({| session_state := Some (session p); store := store st |},
       shown p ++ map st_error errors, Py.returned tt)).
  { intros ld p L. unfold upload_content_interface. rewrite L, Hs.
    fold errors. rewrite E. reflexivity. }
  split; [exact E|]. split; [now rewrite E|].
  split; [|intros location ld p _; apply U].
  destruct (location_input_component geo (location_in inp)
              (initial_page (session_state st))) as [[ld|exn] p] eqn:L.
  - now rewrite (U ld p eq_refl).
  - unfold upload_content_interface. now rewrite L.
Qed.

Lemma blank_submission_three_errors_witness :
  upload_content_interface true (Sqlite.reliable 7) fresh_state
    {| contribution_type := audio_option;
       title := blank_unicode;
       location_in := gps_inputs (Some sample_reading);
       content_description := "";
       contributor_name := "Meena";
       chosen_files := [];
       submitted := true |}
  = ({| session_state :=
          Some {| latitude := Some 13.0827%Q; longitude := Some 80.2707%Q;
                  address := ""; method := Some "GPS" |};
        store := init_database |},
     [st_success_location 13.0827 80.2707; st_metric_latitude 13.0827;
      st_metric_longitude 80.2707;
      st_map (Some 13.0827%Q) (Some 80.2707%Q);
      st_error "Title is required";
      st_error "Content description is required";
      st_error "Please upload at least one file"],
     Py.returned tt).
Proof.
  destruct (blank_submission_three_errors true (Sqlite.reliable 7) fresh_state
    {| contribution_type := audio_option;
       title := blank_unicode;
       location_in := gps_inputs (Some sample_reading);
       content_description := "";
       contributor_name := "Meena";
       chosen_files := [];
       submitted := true |}) as (E & _ & _ & U);
    [reflexivity | reflexivity | reflexivity | reflexivity | reflexivity
    | reflexivity | ].
  rewrite (U (Some sample_reading)
             {| latitude := Some 13.0827%Q; longitude := Some 80.2707%Q;
                address := ""; method := Some "GPS" |}
             {| session := {| latitude := Some 13.0827%Q;
                              longitude := Some 80.2707%Q;
                              address := ""; method := Some "GPS" |};
                shown := [st_success_location 13.0827 80.2707;
                          st_metric_latitude 13.0827;
                          st_metric_longitude 80.2707;
                          st_map (Some 13.0827%Q) (Some 80.2707%Q)] |}
             eq_refl eq_refl).
  rewrite E. reflexivity.
Defined.

(* ================================================================= *)
(** ** A historical event *)

(** C9. Submitting the Historical Event/Story category with a title and a
    description that are not blank after trimming (white space of any
    kind), coordinates, and the contributor field left empty writes exactly
    one row, into [historical_events]; the row has the contributor
    "Anonymous" and the given coordinates, and no address: the table has no
    such column and the browsing view shows none.  The coordinates are those
    of the location the component returns under the Device GPS choice, the
    branch that runs without a button. *)
Theorem historical_event_submission
    (geo : bool) (e : Sqlite.env) (st : app_state) (inp : form_inputs)
    (location : option gps_reading)
    (ld : location_data) (p : page) (lat lon : Q) :
  contribution_type inp = event_option ->
  Py.strip (title inp) <> "" ->
  Py.strip (content_description inp) <> "" ->
  contributor_name inp = "" ->
  submitted inp = true ->
  location_method_choice (location_in inp) = use_device_gps location ->
  location_input_component geo (location_in inp)
                           (initial_page (session_state st))
  = (Py.returned ld, p) ->
  latitude ld = Some lat ->
  longitude ld = Some lon ->
  no_fault e 1 ->
  let row := {| Event.temple_id := None;
                Event.event_date := None;
                Event.event_title := title inp;
                Event.event_description := content_description inp;
                Event.latitude := Some lat;
                Event.longitude := Some lon;
                Event.contributor_name := "Anonymous";
                Event.created_at := Sqlite.clock e 0 |} in
  upload_content_interface geo e st inp
  = ({| session_state := Some unset_location;
        store := {| temples := temples (store st);
                    temple_media := temple_media (store st);
                    content_contributions := content_contributions (store st);
                    historical_events := historical_events (store st) ++ [row] |} |},
     shown p ++ [st_success_uploaded 1; st_balloons],
     Py.returned tt)
  /\ View.location_address (view_of_event row) = None.
Proof.
  intros Hc Ht Hd Hw Hs _ L Hlat Hlon Hok row. split; [|reflexivity].
  unfold upload_content_interface. rewrite L, Hs, Hc, Hw.
  assert (V : validation_errors event_option (title inp) (content_description inp)
                (uploaded_files_of event_option (chosen_files inp)) = []).
  { unfold validation_errors.
    destruct (Py.strip (title inp)); [now elim Ht|].
    destruct (Py.strip (content_description inp)); [now elim Hd|].
    reflexivity. }
  rewrite V.
  rewrite (save_contribution_ok e event_option (title inp)
             (content_description inp) ld "" (store st)
             (uploaded_files_of event_option (chosen_files inp)) Hok).
  unfold persisted, insert_event. simpl. rewrite Hlat, Hlon. reflexivity.
Qed.

Lemma historical_event_submission_witness :
  upload_content_interface true (Sqlite.reliable 7) fresh_state sample_gps_event
  = ({| session_state := Some unset_location;
        store :=
          {| temples := []; temple_media := []; content_contributions := [];
             historical_events :=
               [ {| Event.temple_id := None;
                    Event.event_date := None;
                    Event.event_title := "Temple Bell Ritual";
                    Event.event_description := "Annual ritual";
                    Event.latitude := Some 13.0827%Q;
                    Event.longitude := Some 80.2707%Q;
                    Event.contributor_name := "Anonymous";
                    Event.created_at := 7 |} ] |} |},
     [st_success_location 13.0827 80.2707; st_metric_latitude 13.0827;
      st_metric_longitude 80.2707;
      st_map (Some 13.0827%Q) (Some 80.2707%Q);
      st_success_uploaded 1; st_balloons],
     Py.returned tt).
Proof.
  apply (historical_event_submission true (Sqlite.reliable 7) fresh_state
           sample_gps_event (Some sample_reading)
           {| latitude := Some 13.0827%Q; longitude := Some 80.2707%Q;
              address := ""; method := Some "GPS" |}
           {| session := {| latitude := Some 13.0827%Q;
                            longitude := Some 80.2707%Q;
                            address := ""; method := Some "GPS" |};
              shown := [st_success_location 13.0827 80.2707;
                        st_metric_latitude 13.0827;
                        st_metric_longitude 80.2707;
                        st_map (Some 13.0827%Q) (Some 80.2707%Q)] |}
           13.0827%Q 80.2707%Q).
  - reflexivity.
  - vm_compute. discriminate.
  - vm_compute. discriminate.
  - reflexivity.
  - reflexivity.
  - reflexivity.
  - reflexivity.
  - reflexivity.
  - reflexivity.
  - intros i _. reflexivity.
Defined.

(* ================================================================= *)
(** ** Browsing with the location filter *)

Lemma insert_desc_In {A} (key : A -> timestamp) x y l :
  In y (insert_desc key x l) <-> y = x \/ In y l.
Proof.
  induction l as [|z l IH]; simpl.
  - intuition.
  - destruct (Nat.leb (key z) (key x)); simpl; [intuition|].
    rewrite IH. intuition.
Qed.

(** Ordering a table neither drops nor invents rows. *)
Lemma order_by_desc_In {A} (key : A -> timestamp) y l :
  In y (order_by_desc key l) <-> In y l.
Proof.
  unfold order_by_desc. induction l as [|x l IH]; simpl; [tauto|].
  rewrite insert_desc_In, IH. intuition.
Qed.

Lemma all_contributions_paired db :
  rows_paired db ->
  forall r, In r (all_contributions db) ->
            both_or_neither (View.latitude r) (View.longitude r).
Proof.
  intros (Ht & Hc & He) r. unfold all_contributions.
  rewrite !in_app_iff, !in_map_iff.
  rewrite Forall_forall in Ht, Hc, He.
  intros [(x & <- & Hx)|[(x & <- & Hx)|(x & <- & Hx)]];
    apply order_by_desc_In in Hx; simpl; auto.
Qed.

(** The test the code runs and the test on both coordinates agree on a row
    whose coordinates are paired. *)
Lemma notna_latitude_both lat lon :
  both_or_neither lat lon -> notna lat = notna lat && notna lon.
Proof. unfold both_or_neither. intros <-. now destruct (notna lat). Qed.

(** C7. Ticking "only show contributions with location data" keeps a row
    that has a latitude and no longitude: the filter tests the latitude
    alone.  The rows the same page hands to its map are tested on both
    coordinates, and leave that row out. *)
Theorem location_filter_keeps_half_located_row :
  browse_contributions half_located_store "All" "All" true
  = [view_of_content half_located_row]
  /\ View.latitude (view_of_content half_located_row) = Some 12.5%Q
  /\ View.longitude (view_of_content half_located_row) = None
  /\ browse_map_data
       (browse_contributions half_located_store "All" "All" true) = []
  /\ filter (fun r => notna (View.latitude r) && notna (View.longitude r))
       (browse_contributions half_located_store "All" "All" false) = [].
Proof. repeat split. Qed.

(* ================================================================= *)
(** ** A GPS reading at the origin (0.0, 0.0) *)

(** C8. A GPS reading of latitude 0.0 and longitude 0.0 is not taken over
    as a location: the reading's latitude is tested for its truth value, so
    the page reports that location access failed, the session stays without
    coordinates, and the temple sent with the reading is stored with no
    latitude and no longitude. *)
Theorem gps_origin_reading_stored_as_absent :
  upload_content_interface true (Sqlite.reliable 7) fresh_state
                           origin_submission
  = ({| session_state := Some unset_location;
        store :=
          {| temples :=
               [ {| Temple.name := "Null Island shrine";
                    Temple.location_address := "";
                    Temple.latitude := None;
                    Temple.longitude := None;
                    Temple.location_accuracy := None;
                    Temple.built_year := None;
                    Temple.deity := None;
                    Temple.architecture_style := None;
                    Temple.description := "On the equator";
                    Temple.contributor_name := "Meena";
                    Temple.created_at := 7 |} ];
             temple_media := [];
             content_contributions := [];
             historical_events := [] |} |},
     [st_warning gps_failed_message; st_success_uploaded 1; st_balloons],
     Py.returned tt).
Proof. reflexivity. Qed.

(* ================================================================= *)
(** ** The heritage map query *)

Lemma length_heritage_locations db :
  length (heritage_locations db)
  = length (filter (fun r => notna (Temple.latitude r) && notna (Temple.longitude r))
                   (temples db))
    + length (filter (fun r => notna (Content.latitude r) && notna (Content.longitude r))
                     (content_contributions db))
    + length (filter (fun r => notna (Event.latitude r) && notna (Event.longitude r))
                     (historical_events db)).
Proof.
  unfold heritage_locations. rewrite !length_app, !length_map. lia.
Qed.

Lemma filter_all {A} (f : A -> bool) l :
  Forall (fun x => f x = true) l -> filter f l = l.
Proof.
  induction 1 as [|x l Hx _ IH]; simpl; [reflexivity|].
  now rewrite Hx, IH.
Qed.

(* ================================================================= *)
(** ** The five categories of the select box *)

(** The three upload categories are the file-bearing ones: they show an
    uploader and take the third branch of [save_contribution]. *)
Lemma file_categories ct files :
  In ct [photos_option; audio_option; documents_option] ->
  Py.str_in "Temple Information" ct = false
  /\ Py.str_in "Historical Event" ct = false
  /\ uploaded_files_of ct files = Some files.
Proof.
  intros [<-|[<-|[<-|[]]]]; repeat split; reflexivity.
Qed.

(** The other two show no uploader and write to their own table. *)
Lemma record_categories files :
  Py.str_in "Temple Information" temple_option = true
  /\ Py.str_in "Temple Information" event_option = false
  /\ Py.str_in "Historical Event" event_option = true
  /\ uploaded_files_of temple_option files = None
  /\ uploaded_files_of event_option files = None.
Proof. repeat split; reflexivity. Qed.

(* ================================================================= *)
(** * Further properties of the writer *)

Lemma or_str_nonempty who : Py.or_str who "Anonymous" <> "".
Proof. destruct who; discriminate. Qed.

Lemma added_nothing db : added db db [] [] [].
Proof. unfold added; now rewrite !app_nil_r. Qed.

Lemma total_items_added db db' ts cs es :
  added db db' ts cs es ->
  Home.total_items (show_enhanced_home db')
  = Home.total_items (show_enhanced_home db)
    + (length ts + length cs + length es).
Proof.
  intros (Ht & _ & Hc & He). simpl. rewrite Ht, Hc, He, !length_app. lia.
Qed.

Lemma content_rows_written e ct t d loc who files k :
  Forall (fun r => sized r /\ Content.contributor_name r <> ""
                   /\ Content.content_type r = ct)
         (content_rows e ct t d loc who files k).
Proof.
  revert k; induction files; intros; simpl; constructor; auto.
  repeat split. apply or_str_nonempty.
Qed.

(** What a call of [save_contribution] does to the store, failure or not:
    it appends rows, as many as it returns, and the rows look as follows. *)
Lemma save_contribution_delta e ct t d loc who db files :
  exists ts cs es,
    added db (fst (fst (save_contribution e ct t d loc who db files))) ts cs es
    /\ length ts + length cs + length es
       = snd (fst (save_contribution e ct t d loc who db files))
    /\ Forall (fun r => temple_bare r /\ Temple.contributor_name r <> "") ts
    /\ Forall (fun r => sized r /\ Content.contributor_name r <> ""
                        /\ Content.content_type r = ct) cs
    /\ Forall (fun r => Event.contributor_name r <> "") es
    /\ (cs <> [] -> Py.str_in "Temple Information" ct = false
                    /\ Py.str_in "Historical Event" ct = false).
Proof.
  destruct (save_contribution_cases e ct t d loc who db files) as [S|(msg & S)];
    rewrite S; simpl.
  - unfold persisted, inserts.
    destruct (Py.str_in "Temple Information" ct).
    { do 3 eexists. split; [apply added_insert_temple|].
      repeat split; auto; try congruence.
      constructor; [|constructor]. repeat split. apply or_str_nonempty. }
    destruct (Py.str_in "Historical Event" ct).
    { do 3 eexists. split; [apply added_insert_event|].
      repeat split; auto; try congruence.
      constructor; [apply or_str_nonempty | constructor]. }
    do 3 eexists. split; [apply added_add_content|].
    split; [simpl; rewrite content_rows_length; destruct files; simpl; lia|].
    repeat split; auto. apply content_rows_written.
  - exists [], [], []. split; [apply added_nothing|].
    repeat split; auto; congruence.
Qed.

(** X1. Whatever the storage does, [save_contribution] only appends: the
    rows that were there stay as they are, the number of rows added is the
    count it returns (0 after a failure), and the total of the home page
    grows by that count. *)
Theorem save_contribution_counts_rows
    (e : Sqlite.env) (contribution_type title description : string)
    (location : location_data) (contributor_name : string)
    (db : database) (uploaded_files : option (list uploaded_file)) :
  let saved := save_contribution e contribution_type title description
                                 location contributor_name db uploaded_files in
  exists ts cs es,
    added db (fst (fst saved)) ts cs es
    /\ length ts + length cs + length es = snd (fst saved)
    /\ Home.total_items (show_enhanced_home (fst (fst saved)))
       = Home.total_items (show_enhanced_home db) + snd (fst saved).
Proof.
  intros saved.
  destruct (save_contribution_delta e contribution_type title description
              location contributor_name db uploaded_files)
    as (ts & cs & es & A & L & _).
  exists ts, cs, es. split; [exact A|]. split; [exact L|].
  subst saved. rewrite <- L. apply total_items_added, A.
Qed.

(** X2. A save in a file-bearing category with no file at all returns 0 and
    leaves the store as it was, whether the commit succeeds or not. *)
Theorem save_contribution_without_files
    (e : Sqlite.env) (contribution_type title description : string)
    (location : location_data) (contributor_name : string)
    (db : database) (uploaded_files : option (list uploaded_file)) :
  Py.str_in "Temple Information" contribution_type = false ->
  Py.str_in "Historical Event" contribution_type = false ->
  no_files uploaded_files = true ->
  let saved := save_contribution e contribution_type title description
                                 location contributor_name db uploaded_files in
  fst (fst saved) = db /\ snd (fst saved) = 0.
Proof.
  intros Ht He Hn saved. subst saved.
  destruct (save_contribution_cases e contribution_type title description
              location contributor_name db uploaded_files) as [S|(msg & S)];
    rewrite S; simpl; [|split; reflexivity].
  unfold persisted, inserts. rewrite Ht, He.
  destruct uploaded_files as [[|f rest]|]; try discriminate;
    simpl; now rewrite add_content_nil.
Qed.

Lemma save_contribution_without_files_witness :
  save_contribution (Sqlite.reliable 7) audio_option "Bells" "Evening bells"
                    sample_location "Meena" sample_store (Some [])
  = (sample_store, 0, []).
Proof.
  destruct (save_contribution_without_files (Sqlite.reliable 7) audio_option
              "Bells" "Evening bells" sample_location "Meena" sample_store
              (Some [])) as (Hdb & Hn);
    [reflexivity | reflexivity | reflexivity |].
  destruct (save_contribution _ _ _ _ _ _ _ _) as [[db' n] ev] eqn:S.
  simpl in Hdb, Hn. subst db' n.
  f_equal. vm_compute in S. now inversion S.
Defined.

(* ================================================================= *)
(** * Further invariants of the reachable states *)

(** Where the store of a run comes from. *)
Lemma upload_store_cases geo e st inp :
  store (fst (fst (upload_content_interface geo e st inp))) = store st
  \/ exists ld,
       store (fst (fst (upload_content_interface geo e st inp)))
       = fst (fst (save_contribution e (contribution_type inp) (title inp)
                     (content_description inp) ld (contributor_name inp)
                     (store st)
                     (uploaded_files_of (contribution_type inp)
                                        (chosen_files inp)))).
Proof.
  unfold upload_content_interface.
  destruct (location_input_component geo (location_in inp)
              (initial_page (session_state st))) as [[ld|exn] p]; [|now left].
  destruct (submitted inp); [|now left].
  destruct (validation_errors _ _ _ _); [|now left].
  right. exists ld.
  match goal with |- context [report_saved p ?s] =>
    destruct (report_saved_state p s) as (Hs & _); exact Hs end.
Qed.

(** Where the session of a run comes from. *)
Lemma upload_session_cases geo e st inp :
  let st' := fst (fst (upload_content_interface geo e st inp)) in
  session_state st' = Some unset_location
  \/ session_state st'
     = Some (session (snd (location_input_component geo (location_in inp)
                             (initial_page (session_state st))))).
Proof.
  unfold upload_content_interface.
  destruct (location_input_component geo (location_in inp)
              (initial_page (session_state st))) as [[ld|exn] p]; [|now right].
  destruct (submitted inp); [|now right].
  destruct (validation_errors _ _ _ _); [|now right].
  match goal with |- context [report_saved p ?s] =>
    destruct (report_saved_state p s) as (_ & [H|H]); simpl in *; auto end.
Qed.

Lemma store_written_save e ct t d loc who db files :
  store_written db ->
  store_written (fst (fst (save_contribution e ct t d loc who db files))).
Proof.
  intros (Hm & Ht & Hc & He).
  destruct (save_contribution_delta e ct t d loc who db files)
    as (ts & cs & es & (At & Am & Ac & Ae) & _ & Wt & Wc & We & _).
  unfold store_written. rewrite At, Am, Ac, Ae.
  repeat split; auto; apply Forall_app; split; auto.
  eapply Forall_impl; [|exact Wc]. intros r (? & ? & _). now split.
Qed.

Lemma reachable_written st : reachable st -> store_written (store st).
Proof.
  induction 1 as [|geo e st inp _ IH|st _ IH].
  - repeat split; constructor.
  - destruct (upload_store_cases geo e st inp) as [->|(ld & ->)];
      [assumption | now apply store_written_save].
  - exact IH.
Qed.

(** X3. No page of the application writes to [temple_media]: the table is
    empty in every state the application reaches. *)
Theorem temple_media_never_written (st : app_state) :
  reachable st -> temple_media (store st) = [].
Proof. intros R. now destruct (reachable_written st R). Qed.

Lemma temple_media_never_written_witness : temple_media sample_store = [].
Proof.
  apply (temple_media_never_written
           (fst (fst (upload_content_interface true (Sqlite.reliable 9)
              (fst (fst (upload_content_interface true (Sqlite.reliable 7)
                           fresh_state sample_submission)))
              sample_upload)))).
  apply reach_upload, reach_upload, reach_start.
Defined.

Lemma sum_of_ext {A} (f g : A -> nat) l :
  Forall (fun r => f r = g r) l -> sum_of f l = sum_of g l.
Proof. induction 1; simpl; auto. Qed.

(** X4. Every stored content row records as [file_size] the length of its
    [file_data]; the sizes a statistics query adds up are the bytes kept. *)
Theorem stored_file_sizes (st : app_state) :
  reachable st ->
  Forall sized (content_contributions (store st))
  /\ sum_of Content.file_size (content_contributions (store st))
     = sum_of (fun r => length (Content.file_data r))
              (content_contributions (store st)).
Proof.
  intros R. destruct (reachable_written st R) as (_ & _ & Hc & _).
  assert (S : Forall sized (content_contributions (store st)))
    by (eapply Forall_impl; [|exact Hc]; now intros r (? & _)).
  split; [exact S | now apply sum_of_ext].
Qed.

Lemma stored_file_sizes_witness :
  sum_of Content.file_size (content_contributions sample_store)
  = sum_of (fun r => length (Content.file_data r))
           (content_contributions sample_store).
Proof.
  apply (stored_file_sizes
           (fst (fst (upload_content_interface true (Sqlite.reliable 9)
              (fst (fst (upload_content_interface true (Sqlite.reliable 7)
                           fresh_state sample_submission)))
              sample_upload)))).
  apply reach_upload, reach_upload, reach_start.
Defined.

Lemma order_by_desc_Forall {A} (key : A -> timestamp) (P : A -> Prop) l :
  Forall P l -> Forall P (order_by_desc key l).
Proof.
  rewrite !Forall_forall. intros H x Hx. apply H.
  now apply order_by_desc_In in Hx.
Qed.

Lemma dropna_all_none {A B} (f : A -> option B) l :
  Forall (fun r => f r = None) l -> dropna (map f l) = [].
Proof. induction 1 as [|r l Hr _ IH]; simpl; [reflexivity | now rewrite Hr]. Qed.

(** X5. A temple added through the form never carries accuracy, built year,
    deity or architecture style; so the architecture select box of the
    temple list offers "All" and nothing else. *)
Theorem temples_from_form_are_bare (st : app_state) :
  reachable st ->
  Forall temple_bare (temples (store st))
  /\ forall row_contains search_term location_filter architecture_filter page,
       view_temples row_contains (store st) search_term location_filter
                    architecture_filter = Some page ->
       TemplesPage.architecture_choices page = ["All"].
Proof.
  intros R. destruct (reachable_written st R) as (_ & Ht & _).
  assert (B : Forall temple_bare (temples (store st)))
    by (eapply Forall_impl; [|exact Ht]; now intros r (? & _)).
  split; [exact B|].
  intros row_contains s l a page. unfold view_temples.
  pose proof (order_by_desc_Forall Temple.created_at temple_bare _ B) as O.
  destruct (order_by_desc Temple.created_at (temples (store st)))
    as [|r rest]; [discriminate|].
  intros E. inversion E; subst; clear E.
  cbn [TemplesPage.architecture_choices].
  change ("All" :: group_keys (dropna (map Temple.architecture_style (r :: rest)))
          = ["All"]).
  rewrite (dropna_all_none Temple.architecture_style (r :: rest)); [reflexivity|].
  eapply Forall_impl; [|exact O]. now intros x (_ & _ & _ & ?).
Qed.

Lemma temples_from_form_are_bare_witness :
  Forall temple_bare (temples (store sample_temple_state)).
Proof.
  apply (temples_from_form_are_bare sample_temple_state).
  apply reach_upload, reach_start.
Defined.

(** X6. No stored row has an empty contributor name: in the browsing view
    of any reachable store every row names a contributor. *)
Theorem contributor_never_empty (st : app_state) (r : View.row) :
  reachable st ->
  In r (all_contributions (store st)) ->
  View.contributor_name r <> "".
Proof.
  intros R. destruct (reachable_written st R) as (_ & Ht & Hc & He).
  rewrite Forall_forall in Ht, Hc, He.
  unfold all_contributions. rewrite !in_app_iff, !in_map_iff.
  intros [(x & <- & Hx)|[(x & <- & Hx)|(x & <- & Hx)]];
    apply order_by_desc_In in Hx; simpl.
  - now apply Hc.
  - now apply Ht.
  - now apply He.
Qed.

Lemma contributor_never_empty_witness :
  View.contributor_name (view_of_temple
    {| Temple.name := "Kapaleeshwarar";
       Temple.location_address := "";
       Temple.latitude := None;
       Temple.longitude := None;
       Temple.location_accuracy := None;
       Temple.built_year := None;
       Temple.deity := None;
       Temple.architecture_style := None;
       Temple.description := "Dravidian temple";
       Temple.contributor_name := "Anonymous";
       Temple.created_at := 11 |}) <> "".
Proof.
  apply (contributor_never_empty sample_temple_state).
  - apply reach_upload, reach_start.
  - vm_compute. auto.
Defined.

(* ================================================================= *)
(** * Further properties of the location component *)

Lemma method_inv_tagged x lon a tag :
  tag = "GPS" \/ tag = "Manual" \/ tag = "IP" ->
  method_inv {| latitude := Some x; longitude := lon; address := a;
                method := Some tag |}.
Proof.
  intros T. split; simpl.
  - split; discriminate.
  - destruct T as [->|[->| ->]]; auto.
Qed.

Lemma acquire_method_inv geo m p :
  method_inv (session p) -> method_inv (session (snd (acquire geo m p))).
Proof.
  intros H. destruct m as [location|typed_lat typed_lon set|detect lookup];
    unfold acquire.
  - destruct geo; [|exact H].
    destruct location as [loc|]; [|exact H].
    destruct (Py.truthy (gps_latitude loc)) eqn:T; [|exact H].
    destruct (truthy_some _ T) as (x & E & Tx).
    run_page. rewrite E in *. simpl.
    destruct (gps_longitude loc) as [y|]; simpl; apply method_inv_tagged; auto.
  - run_page. destruct set; [apply method_inv_tagged; auto | exact H].
  - destruct detect; [|exact H].
    destruct (get_location_from_ip lookup) as [ip|]; [|exact H].
    destruct (Py.truthy (ip_latitude ip)) eqn:T; [|exact H].
    destruct (truthy_some _ T) as (x & E & Tx).
    run_page. rewrite E in *. simpl.
    destruct (ip_longitude ip) as [y|]; simpl; apply method_inv_tagged; auto.
Qed.

Lemma location_input_component_method geo inp p :
  method_inv (session p) ->
  method_inv (session (snd (location_input_component geo inp p))).
Proof.
  intros H. unfold location_input_component.
  pose proof (acquire_method_inv geo (location_method_choice inp) p H) as H1.
  unfold Py.bind at 1.
  destruct (acquire geo (location_method_choice inp) p) as [[[]|exn] p1];
    simpl in *; [|assumption].
  pose proof (display_current_session p1) as H2.
  unfold Py.bind at 1.
  destruct (display_current p1) as [[[]|exn] p2]; simpl in *;
    rewrite H2; exact H1.
Qed.

Lemma reachable_method st :
  reachable st -> method_inv (widget (session_state st) unset_location).
Proof.
  assert (U : method_inv unset_location)
    by (split; simpl; [tauto | auto]).
  induction 1 as [|geo e st inp _ IH|st _ IH]; try exact U.
  destruct (upload_session_cases geo e st inp) as [-> | ->]; [exact U|].
  simpl. now apply location_input_component_method.
Qed.

(** X7. In every reachable state the session's location has a method tag
    exactly when it has a latitude, and the tag is GPS, Manual or IP. *)
Theorem method_tag_follows_latitude (st : app_state) (s : location_data) :
  reachable st ->
  session_state st = Some s ->
  (latitude s = None <-> method s = None)
  /\ (method s = None \/ method s = Some "GPS" \/ method s = Some "Manual"
      \/ method s = Some "IP").
Proof.
  intros R E. pose proof (reachable_method st R) as H.
  rewrite E in H. exact H.
Qed.

Lemma method_tag_follows_latitude_witness :
  session_state located_session_state
  = Some {| latitude := Some 13.0827%Q; longitude := Some 80.2707%Q;
            address := ""; method := Some "GPS" |}
  /\ (Some 13.0827%Q = None <-> Some "GPS" = @None string)
  /\ (Some "GPS" = None \/ Some "GPS" = Some "GPS"
      \/ Some "GPS" = Some "Manual" \/ Some "GPS" = Some "IP").
Proof.
  split; [reflexivity|].
  apply (method_tag_follows_latitude located_session_state
           {| latitude := Some 13.0827%Q; longitude := Some 80.2707%Q;
              address := ""; method := Some "GPS" |}).
  - apply reach_upload, reach_start.
  - reflexivity.
Defined.

Lemma acquire_raised geo m p exn p1 :
  acquire geo m p = (Py.raised exn, p1) ->
  exn = Py.TypeError
  /\ longitude (session p1) = None
  /\ Py.truthy (latitude (session p1)) = true.
Proof.
  destruct m as [location|typed_lat typed_lon set|detect lookup];
    unfold acquire.
  - destruct geo; [|discriminate].
    destruct location as [loc|]; [|discriminate].
    destruct (Py.truthy (gps_latitude loc)) eqn:T; [|discriminate].
    destruct (truthy_some _ T) as (x & E & Tx).
    run_page. rewrite E in *. simpl.
    destruct (gps_longitude loc) as [y|]; simpl; [discriminate|].
    intros H; inversion H; subst; simpl. auto.
  - run_page. destruct set; discriminate.
  - destruct detect; [|discriminate].
    destruct (get_location_from_ip lookup) as [ip|]; [|discriminate].
    destruct (Py.truthy (ip_latitude ip)) eqn:T; [|discriminate].
    destruct (truthy_some _ T) as (x & E & Tx).
    run_page. rewrite E in *. simpl.
    destruct (ip_longitude ip) as [y|]; simpl; [discriminate|].
    intros H; inversion H; subst; simpl. auto.
Qed.

Lemma display_current_raised p exn p1 :
  display_current p = (Py.raised exn, p1) ->
  exn = Py.TypeError
  /\ longitude (session p1) = None
  /\ Py.truthy (latitude (session p1)) = true.
Proof.
  destruct p as [[[x|] [y|] a tag] ev]; run_page; unfold Py.truthy;
    try discriminate.
  - destruct (Py.truthy_float x); simpl; [|discriminate].
    destruct (negb (Qeq_bool x 0) || negb (Qeq_bool y 0)); discriminate.
  - destruct (Py.truthy_float x) eqn:T; simpl; [|discriminate].
    intros H; inversion H; subst; simpl. auto.
Qed.

(** X8. Under the Device GPS choice the location component raises nothing
    but the [TypeError] of formatting a missing longitude: whenever such a
    run ends in an exception, the session it leaves has a latitude that
    counts as true and no longitude. *)
Theorem component_raises_on_missing_longitude
    (geo : bool) (inp : location_inputs) (location : option gps_reading)
    (p p' : page) (exn : Py.exception) :
  location_method_choice inp = use_device_gps location ->
  location_input_component geo inp p = (Py.raised exn, p') ->
  exn = Py.TypeError
  /\ longitude (session p') = None
  /\ Py.truthy (latitude (session p')) = true.
Proof.
  intros _. unfold location_input_component. unfold Py.bind at 1.
  destruct (acquire geo (location_method_choice inp) p) as [[[]|e1] p1] eqn:A.
  - unfold Py.bind at 1.
    destruct (display_current p1) as [[[]|e2] p2] eqn:D.
    + discriminate.
    + intros H; inversion H; subst. now apply (display_current_raised p1).
  - intros H; inversion H; subst.
    now apply (acquire_raised geo (location_method_choice inp) p).
Qed.

Lemma component_raises_on_missing_longitude_witness :
  exists p',
    location_input_component true
      (gps_inputs (Some {| gps_latitude := Some 12.5%Q;
                           gps_longitude := None;
                           gps_accuracy := None |}))
      (initial_page None)
    = (Py.raised Py.TypeError, p')
    /\ longitude (session p') = None.
Proof.
  eexists. split; [reflexivity|].
  apply (component_raises_on_missing_longitude true
           (gps_inputs (Some {| gps_latitude := Some 12.5%Q;
                                gps_longitude := None;
                                gps_accuracy := None |}))
           (Some {| gps_latitude := Some 12.5%Q;
                    gps_longitude := None;
                    gps_accuracy := None |})
           (initial_page None) _ Py.TypeError).
  - reflexivity.
  - reflexivity.
Defined.

(** X10. A GPS reading changes the session only when the geolocation
    package is there and the reading has a latitude that counts as true:
    otherwise the branch ends normally with the session untouched; and when
    it is taken over, the session holds the reading's coordinates under the
    tag GPS, with the address it had. *)
Theorem gps_reading_taken_iff_usable
    (geo : bool) (location : option gps_reading) (p : page) :
  let run := acquire geo (use_device_gps location) p in
  if gps_usable geo location then
    exists loc,
      location = Some loc
      /\ session (snd run)
         = {| latitude := gps_latitude loc; longitude := gps_longitude loc;
              address := address (session p); method := Some "GPS" |}
  else
    fst run = Py.returned tt /\ session (snd run) = session p.
Proof.
  unfold gps_usable, acquire. destruct geo; simpl; [|split; reflexivity].
  destruct location as [loc|]; [|split; reflexivity].
  destruct (Py.truthy (gps_latitude loc)) eqn:T; [|split; reflexivity].
  exists loc. split; [reflexivity|].
  destruct (truthy_some _ T) as (x & E & Tx).
  run_page. rewrite E. simpl. now destruct (gps_longitude loc).
Qed.

(* ================================================================= *)
(** * Further properties of the upload page *)

Lemma sum_of_app {A} (f : A -> nat) l l' :
  sum_of f (l ++ l') = sum_of f l + sum_of f l'.
Proof. induction l; simpl; [reflexivity | rewrite IHl; lia]. Qed.

Lemma uploaded_count_errors l : uploaded_count (map st_error l) = 0.
Proof. induction l; simpl; auto. Qed.

Ltac count_events :=
  unfold uploaded_count; simpl; rewrite ?sum_of_app; simpl; lia.

Lemma acquire_announces_nothing geo m p :
  uploaded_count (shown (snd (acquire geo m p))) = uploaded_count (shown p).
Proof.
  destruct m as [location|typed_lat typed_lon set|detect lookup];
    unfold acquire.
  - destruct geo; [|count_events].
    destruct location as [loc|]; [|reflexivity].
    destruct (Py.truthy (gps_latitude loc)); [|count_events].
    run_page. destruct (gps_latitude loc); simpl; [|reflexivity].
    destruct (gps_longitude loc); simpl; [count_events | reflexivity].
  - run_page. destruct set; [count_events | reflexivity].
  - destruct detect; [|reflexivity].
    destruct (get_location_from_ip lookup) as [ip|]; [|count_events].
    destruct (Py.truthy (ip_latitude ip)); [|count_events].
    run_page. destruct (ip_latitude ip); simpl; [|count_events].
    destruct (ip_longitude ip); simpl; count_events.
Qed.

Lemma display_current_announces_nothing p :
  uploaded_count (shown (snd (display_current p))) = uploaded_count (shown p).
Proof.
  destruct p as [[[x|] [y|] a tag] ev]; run_page; unfold Py.truthy;
    try reflexivity; destruct (Py.truthy_float x); simpl; try reflexivity;
    try count_events.
  destruct (negb (Qeq_bool x 0) || negb (Qeq_bool y 0)); count_events.
Qed.

(** The location component shows no upload message. *)
Lemma component_announces_nothing geo inp p :
  uploaded_count (shown (snd (location_input_component geo inp p)))
  = uploaded_count (shown p).
Proof.
  unfold location_input_component.
  pose proof (acquire_announces_nothing geo (location_method_choice inp) p) as H1.
  unfold Py.bind at 1.
  destruct (acquire geo (location_method_choice inp) p) as [[[]|exn] p1];
    simpl in *; [|assumption].
  pose proof (display_current_announces_nothing p1) as H2.
  unfold Py.bind at 1.
  destruct (display_current p1) as [[[]|exn] p2]; simpl in *; lia.
Qed.

(** X12. For every run of the upload page, the total of the home page grows
    by exactly the number the success message announces, and by nothing when
    no such message is shown; and once a success is announced the session's
    location is back to unset. *)
Theorem announced_count_is_rows_added
    (geo : bool) (e : Sqlite.env) (st : app_state) (inp : form_inputs) :
  let run := upload_content_interface geo e st inp in
  let st' := fst (fst run) in
  let events := snd (fst run) in
  Home.total_items (show_enhanced_home (store st'))
  = Home.total_items (show_enhanced_home (store st)) + uploaded_count events
  /\ (0 < uploaded_count events -> session_state st' = Some unset_location).
Proof.
  unfold upload_content_interface.
  pose proof (component_announces_nothing geo (location_in inp)
                (initial_page (session_state st))) as C.
  destruct (location_input_component geo (location_in inp)
              (initial_page (session_state st))) as [[ld|exn] p];
    simpl in C |- *; [|rewrite C; split; [lia | intros; lia]].
  destruct (submitted inp); simpl; [|rewrite C; split; [lia | intros; lia]].
  destruct (validation_errors _ _ _ _) eqn:V; simpl.
  - destruct (save_contribution_delta e (contribution_type inp) (title inp)
                (content_description inp) ld (contributor_name inp) (store st)
                (uploaded_files_of (contribution_type inp) (chosen_files inp)))
      as (ts & cs & es & A & L & _).
    pose proof (total_items_added _ _ _ _ _ A) as T.
    destruct (save_contribution_cases e (contribution_type inp) (title inp)
                (content_description inp) ld (contributor_name inp) (store st)
                (uploaded_files_of (contribution_type inp) (chosen_files inp)))
      as [S|(msg & S)]; rewrite S in *; simpl in *.
    + destruct (inserts _ _) as [|n] eqn:I; simpl.
      * split; [|intros H; revert H]; unfold uploaded_count;
          rewrite ?sum_of_app; fold (uploaded_count (shown p));
          rewrite ?C; simpl; lia.
      * split; [|reflexivity]. unfold uploaded_count.
        rewrite !sum_of_app. fold (uploaded_count (shown p)).
        rewrite C. simpl. lia.
    + split; [|intros H; revert H]; unfold uploaded_count;
        rewrite ?sum_of_app; fold (uploaded_count (shown p));
        rewrite ?C; simpl; lia.
  - unfold uploaded_count. rewrite sum_of_app.
    fold (uploaded_count (shown p)).
    fold (uploaded_count (st_error s :: map st_error l)).
    change (st_error s :: map st_error l) with (map st_error (s :: l)).
    rewrite uploaded_count_errors, C. split; [lia | intros; lia].
Qed.

(** Validation lets a submission through exactly when title and
    description are not blank and, unless the category is Temple
    Information or Historical Event, at least one file is attached; it never
    reports more than three errors. *)
Lemma validation_passes_iff
    (contribution_type title content_description : string)
    (uploaded_files : option (list uploaded_file)) :
  (validation_errors contribution_type title content_description
                     uploaded_files = []
   <-> Py.strip title <> ""
       /\ Py.strip content_description <> ""
       /\ (no_files uploaded_files = false
           \/ Py.str_in "Temple Information" contribution_type = true
           \/ Py.str_in "Historical Event" contribution_type = true))
  /\ length (validation_errors contribution_type title content_description
                               uploaded_files) <= 3.
Proof.
  unfold validation_errors.
  destruct (Py.strip title); destruct (Py.strip content_description);
    destruct (no_files uploaded_files);
    destruct (Py.str_in "Temple Information" contribution_type);
    destruct (Py.str_in "Historical Event" contribution_type); simpl;
    (split; [split; [try discriminate; intros _; repeat split; auto;
                     discriminate
                    |intros (A & B & [C|[C|C]]); try reflexivity;
                     try discriminate; try (now elim A); try (now elim B)]
            |lia]).
Qed.

(* ================================================================= *)
(** * Further properties of the read side *)

Lemma filter_insert_desc {A} (key : A -> timestamp) (f : A -> bool) x l :
  length (filter f (insert_desc key x l)) = length (filter f (x :: l)).
Proof.
  induction l as [|y l IH]; simpl in *; [reflexivity|].
  destruct (Nat.leb (key y) (key x)); simpl; [reflexivity|].
  destruct (f y); destruct (f x); simpl in *; lia.
Qed.

(** Ordering a table does not change how many rows pass a test. *)
Lemma filter_order_by_desc {A} (key : A -> timestamp) (f : A -> bool) l :
  length (filter f (order_by_desc key l)) = length (filter f l).
Proof.
  unfold order_by_desc. induction l as [|x l IH]; simpl; [reflexivity|].
  rewrite filter_insert_desc. simpl. destruct (f x); simpl; lia.
Qed.

Lemma length_order_by_desc {A} (key : A -> timestamp) (l : list A) :
  length (order_by_desc key l) = length l.
Proof.
  pose proof (filter_order_by_desc key (fun _ => true) l) as H.
  rewrite !filter_all in H by (apply Forall_forall; auto). exact H.
Qed.

Lemma filter_map_comm {A B} (g : A -> B) (f : B -> bool) l :
  filter f (map g l) = map g (filter (fun x => f (g x)) l).
Proof.
  induction l as [|x l IH]; simpl; [reflexivity|].
  destruct (f (g x)); simpl; now rewrite IH.
Qed.

(** X14. With no filter chosen, the browsing page lists as many rows as the
    home page counts heritage items. *)
Theorem browse_unfiltered_matches_home (db : database) :
  length (browse_contributions db "All" "All" false)
  = Home.total_items (show_enhanced_home db).
Proof.
  unfold browse_contributions, all_contributions. simpl.
  rewrite !length_app, !length_map, !length_order_by_desc. lia.
Qed.

(** A row is listed by the browsing page exactly when it is in the
    unioned view and passes each filter that is switched on; choosing "All"
    switches a select box off, also for a contributor who is named "All". *)
Lemma browse_filter_membership
    (db : database) (content_filter contributor_filter : string)
    (location_filter : bool) (r : View.row) :
  In r (browse_contributions db content_filter contributor_filter
                             location_filter)
  <-> In r (all_contributions db)
      /\ (content_filter = "All" \/ View.content_type r = content_filter)
      /\ (contributor_filter = "All"
          \/ View.contributor_name r = contributor_filter)
      /\ (location_filter = false \/ View.latitude r <> None).
Proof.
  unfold browse_contributions.
  assert (N : forall v : option Q, notna v = true <-> v <> None)
    by (intros [x|]; simpl; split; congruence).
  destruct location_filter; rewrite ?filter_In;
    (destruct (content_filter =? "All") eqn:C; simpl;
     [apply String.eqb_eq in C | apply String.eqb_neq in C]);
    (destruct (contributor_filter =? "All") eqn:K; simpl;
     [apply String.eqb_eq in K | apply String.eqb_neq in K]);
    rewrite ?filter_In, ?String.eqb_eq, ?N; intuition congruence.
Qed.

(** X15. On a reachable store, once the location filter is ticked every row
    the browsing page lists is also a row it hands to the map. *)
Theorem located_rows_are_mapped
    (st : app_state) (content_filter contributor_filter : string) :
  reachable st ->
  browse_map_data (browse_contributions (store st) content_filter
                                        contributor_filter true)
  = browse_contributions (store st) content_filter contributor_filter true.
Proof.
  intros R. destruct (reachable_inv st R) as (_ & Hdb).
  pose proof (all_contributions_paired (store st) Hdb) as P.
  unfold browse_map_data. apply filter_all, Forall_forall.
  intros r Hr.
  assert (In r (all_contributions (store st)) /\ notna (View.latitude r) = true)
    as (Hall & Hlat).
  { unfold browse_contributions in Hr. apply filter_In in Hr.
    destruct Hr as (Hr & Hlat). split; [|exact Hlat].
    destruct (negb (contributor_filter =? "All"));
      [apply filter_In in Hr; destruct Hr as (Hr & _)|];
      (destruct (negb (content_filter =? "All"));
         [apply filter_In in Hr; destruct Hr as (Hr & _)|]); exact Hr. }
  rewrite <- (notna_latitude_both _ _ (P r Hall)). exact Hlat.
Qed.

Lemma located_rows_are_mapped_witness :
  browse_map_data (browse_contributions sample_store "All" "Meena" true)
  = browse_contributions sample_store "All" "Meena" true.
Proof.
  apply (located_rows_are_mapped
           (fst (fst (upload_content_interface true (Sqlite.reliable 9)
              (fst (fst (upload_content_interface true (Sqlite.reliable 7)
                           fresh_state sample_submission)))
              sample_upload)))).
  apply reach_upload, reach_upload, reach_start.
Defined.

Lemma filter_length_ext_in {A} (f g : A -> bool) l :
  Forall (fun x => f x = g x) l -> length (filter f l) = length (filter g l).
Proof.
  intros H. f_equal. apply filter_ext_in. now apply Forall_forall.
Qed.

(** X16. On a reachable store the heritage map shows as many points as the
    browsing page lists rows under the location filter alone, and it shows
    its "no locations" note exactly when that list is empty. *)
Theorem heritage_map_matches_browse (st : app_state) :
  reachable st ->
  length (heritage_locations (store st))
  = length (browse_contributions (store st) "All" "All" true)
  /\ (show_heritage_map (store st) = map_no_locations
      <-> browse_contributions (store st) "All" "All" true = []).
Proof.
  intros R. destruct (reachable_inv st R) as (_ & Ht & Hc & He).
  assert (L : length (heritage_locations (store st))
              = length (browse_contributions (store st) "All" "All" true)).
  { rewrite length_heritage_locations.
    unfold browse_contributions, all_contributions. simpl.
    rewrite !filter_app, !length_app, !filter_map_comm, !length_map,
            !filter_order_by_desc. simpl.
    rewrite (filter_length_ext_in _ (fun r => notna (Temple.latitude r)) (temples (store st))),
            (filter_length_ext_in _ (fun r => notna (Content.latitude r))
               (content_contributions (store st))),
            (filter_length_ext_in _ (fun r => notna (Event.latitude r))
               (historical_events (store st))); [lia| | |].
    - eapply Forall_impl; [|exact He]. intros r H. symmetry.
      now apply notna_latitude_both.
    - eapply Forall_impl; [|exact Hc]. intros r H. symmetry.
      now apply notna_latitude_both.
    - eapply Forall_impl; [|exact Ht]. intros r H. symmetry.
      now apply notna_latitude_both. }
  split; [exact L|].
  unfold show_heritage_map.
  destruct (heritage_locations (store st)) as [|x l];
    destruct (browse_contributions (store st) "All" "All" true) as [|y l'];
    simpl in L; try discriminate; split; try reflexivity; discriminate.
Qed.

Lemma heritage_map_matches_browse_witness :
  length (heritage_locations sample_store)
  = length (browse_contributions sample_store "All" "All" true).
Proof.
  apply (heritage_map_matches_browse
           (fst (fst (upload_content_interface true (Sqlite.reliable 9)
              (fst (fst (upload_content_interface true (Sqlite.reliable 7)
                           fresh_state sample_submission)))
              sample_upload)))).
  apply reach_upload, reach_upload, reach_start.
Defined.

Lemma heritage_locations_set db r :
  In r (heritage_locations db) ->
  (exists x y, Location.latitude r = Some x /\ Location.longitude r = Some y)
  /\ (Location.type r = "Temple" \/ Location.type r = "Historical Event"
      \/ exists c, In c (content_contributions db)
                   /\ Location.type r = Content.content_type c).
Proof.
  assert (S : forall lat lon : option Q,
             notna lat && notna lon = true ->
             exists x y, lat = Some x /\ lon = Some y)
    by (intros [x|] [y|]; simpl; try discriminate; eauto).
  unfold heritage_locations. rewrite !in_app_iff, !in_map_iff.
  intros [(x & <- & Hx)|[(x & <- & Hx)|(x & <- & Hx)]];
    apply filter_In in Hx; destruct Hx as (Hx & Hb); simpl;
    (split; [now apply S|]); eauto.
Qed.

(** X17. Whenever the heritage map is drawn, it holds at least one point,
    the count shown is the number of points, every point has both a
    latitude and a longitude, and each legend entry is the type of a row on
    the map. *)
Theorem heritage_map_points_set
    (db : database) (count : nat) (points : list (option Q * option Q))
    (legend : list string) :
  show_heritage_map db = map_locations count points legend ->
  count = length points
  /\ 0 < count
  /\ Forall (fun pt => exists x y, pt = (Some x, Some y)) points
  /\ Forall (fun k => exists r, In r (heritage_locations db)
                                /\ Location.type r = k) legend.
Proof.
  unfold show_heritage_map.
  pose proof (heritage_locations_set db) as S.
  remember (heritage_locations db) as locs eqn:E.
  assert (G1 : Forall (fun pt => exists x y, pt = (Some x, Some y))
                 (map (fun r => (Location.latitude r, Location.longitude r))
                      locs)).
  { apply Forall_forall. intros pt Hpt. apply in_map_iff in Hpt.
    destruct Hpt as (r & <- & Hr).
    destruct (S r Hr) as ((x & y & -> & ->) & _). eauto. }
  assert (G2 : Forall (fun k => exists r, In r locs /\ Location.type r = k)
                 (map fst (filter (fun entry => type_listed locs (fst entry))
                                  type_colors))).
  { apply Forall_forall. intros k Hk. apply in_map_iff in Hk.
    destruct Hk as ((k' & color) & <- & Hk). apply filter_In in Hk.
    destruct Hk as (_ & Hk). unfold type_listed in Hk.
    apply existsb_exists in Hk. destruct Hk as (r & Hr & Hk).
    apply String.eqb_eq in Hk. exists r. split; assumption. }
  destruct locs as [|r0 l]; [discriminate|].
  intros H. injection H as Hc Hp Hl. subst count points legend.
  split; [simpl; now rewrite length_map|]. split; [simpl; lia|].
  split; [exact G1 | exact G2].
Qed.

Lemma heritage_map_points_set_witness :
  exists points legend,
    show_heritage_map sample_store = map_locations 3 points legend
    /\ 3 = length points.
Proof.
  eexists; eexists. split; [reflexivity|].
  eapply (heritage_map_points_set sample_store 3). reflexivity.
Defined.

Lemma form_reachable_reachable st : form_reachable st -> reachable st.
Proof.
  induction 1; [apply reach_start | now apply reach_upload
               | now apply reach_new_session].
Qed.

Lemma upload_option_of_file_category ct :
  In ct contribution_options ->
  Py.str_in "Temple Information" ct = false ->
  Py.str_in "Historical Event" ct = false ->
  In ct upload_options.
Proof.
  unfold upload_options.
  intros [<-|[<-|[<-|[<-|[<-|[]]]]]] Ht He; simpl; auto; discriminate.
Qed.

(** Content rows written through the select box carry one of the three
    upload options as their type. *)
Lemma form_content_types st :
  form_reachable st ->
  Forall (fun r => In (Content.content_type r) upload_options)
         (content_contributions (store st)).
Proof.
  induction 1 as [|geo e st inp _ IH Hopt|st _ IH]; [constructor| |exact IH].
  destruct (upload_store_cases geo e st inp) as [->|(ld & ->)]; [exact IH|].
  destruct (save_contribution_delta e (contribution_type inp) (title inp)
              (content_description inp) ld (contributor_name inp) (store st)
              (uploaded_files_of (contribution_type inp) (chosen_files inp)))
    as (ts & cs & es & (_ & _ & Ac & _) & _ & _ & Wc & _ & Hcat).
  rewrite Ac. apply Forall_app. split; [exact IH|].
  destruct cs as [|c cs']; [constructor|].
  destruct Hcat as (Ht & He); [discriminate|].
  eapply Forall_impl; [|exact Wc]. intros r (_ & _ & ->).
  now apply upload_option_of_file_category.
Qed.

Lemma legend_entry db count points legend k :
  show_heritage_map db = map_locations count points legend ->
  In k legend ->
  In k (map fst type_colors)
  /\ exists r, In r (heritage_locations db) /\ Location.type r = k.
Proof.
  unfold show_heritage_map.
  remember (heritage_locations db) as locs eqn:E.
  assert (G : In k (map fst (filter (fun entry => type_listed locs (fst entry))
                                    type_colors)) ->
              In k (map fst type_colors)
              /\ exists r, In r locs /\ Location.type r = k).
  { intros Hk. apply in_map_iff in Hk.
    destruct Hk as ((k' & color) & <- & Hk). apply filter_In in Hk.
    destruct Hk as (Hin & Hk). split; [now apply in_map|].
    unfold type_listed in Hk. apply existsb_exists in Hk.
    destruct Hk as (r & Hr & Hk). apply String.eqb_eq in Hk. eauto. }
  destruct locs as [|r0 l]; [discriminate|].
  intros H. injection H as Hc Hp Hl. subst legend. exact G.
Qed.

(** X18. With the categories of the select box, the legend of the heritage
    map never shows 'Photos/Images', 'Audio' or 'Documents': the stored
    type of an upload is the full text of its option, which is none of the
    legend's keys, so only 'Temple' and 'Historical Event' can appear. *)
Theorem legend_never_names_uploads
    (st : app_state) (count : nat) (points : list (option Q * option Q))
    (legend : list string) :
  form_reachable st ->
  show_heritage_map (store st) = map_locations count points legend ->
  Forall (fun k => k = "Temple" \/ k = "Historical Event") legend.
Proof.
  intros R M. apply Forall_forall. intros k Hk.
  destruct (legend_entry _ _ _ _ k M Hk) as (Hkey & r & Hr & Ht).
  destruct (heritage_locations_set _ r Hr) as (_ & [T|[T|(c & Hc & T)]]);
    [left; congruence | right; congruence |].
  pose proof (form_content_types st R) as F.
  rewrite Forall_forall in F. specialize (F c Hc).
  rewrite <- T, Ht in F. unfold upload_options in F. simpl in Hkey, F.
  destruct Hkey as [<-|[<-|[<-|[<-|[<-|[]]]]]]; auto;
    destruct F as [F|[F|[F|[]]]]; discriminate.
Qed.

Lemma legend_never_names_uploads_witness :
  show_heritage_map sample_store
  = map_locations 3
      [(Some 13.0827%Q, Some 80.2707%Q); (Some 13.0827%Q, Some 80.2707%Q);
       (Some 13.0827%Q, Some 80.2707%Q)]
      ["Historical Event"]
  /\ Forall (fun k => k = "Temple" \/ k = "Historical Event")
            ["Historical Event"].
Proof.
  split; [reflexivity|].
  apply (legend_never_names_uploads
           (fst (fst (upload_content_interface true (Sqlite.reliable 9)
              (fst (fst (upload_content_interface true (Sqlite.reliable 7)
                           fresh_state sample_submission)))
              sample_upload))) 3
           [(Some 13.0827%Q, Some 80.2707%Q); (Some 13.0827%Q, Some 80.2707%Q);
            (Some 13.0827%Q, Some 80.2707%Q)]).
  - apply form_upload; [apply form_upload; [apply form_start|]|];
      vm_compute; auto 6.
  - reflexivity.
Defined.

(* ================================================================= *)
(** * The statistics page *)

Lemma group_keys_In k keys : In k (group_keys keys) <-> In k keys.
Proof.
  induction keys as [|x keys IH]; simpl; [tauto|].
  rewrite filter_In, IH. destruct (String.eqb_spec k x) as [->|N]; simpl.
  - intuition.
  - intuition congruence.
Qed.

Lemma group_keys_NoDup keys : NoDup (group_keys keys).
Proof.
  induction keys as [|x keys IH]; simpl; constructor.
  - rewrite filter_In, String.eqb_refl. simpl. intros (_ & H). discriminate.
  - now apply NoDup_filter.
Qed.

Lemma sum_of_zero {A} (l : list A) : sum_of (fun _ => 0) l = 0.
Proof. induction l; simpl; auto. Qed.

Lemma sum_of_plus {A} (f g : A -> nat) l :
  sum_of (fun x => f x + g x) l = sum_of f l + sum_of g l.
Proof. induction l; simpl; [reflexivity | rewrite IHl; lia]. Qed.

Lemma sum_of_pick (x : string) (c : nat) ks :
  NoDup ks -> In x ks ->
  sum_of (fun k => if x =? k then c else 0) ks = c.
Proof.
  induction 1 as [|k ks Hk _ IH]; simpl; [tauto|].
  intros [->|Hx].
  - rewrite String.eqb_refl.
    rewrite (sum_of_ext _ (fun _ => 0)); [rewrite sum_of_zero; lia|].
    apply Forall_forall. intros k' Hk'.
    destruct (String.eqb_spec x k') as [->|]; [now elim Hk | reflexivity].
  - destruct (String.eqb_spec x k) as [->|]; [now elim Hk|].
    now rewrite IH.
Qed.

(** Adding a weight group by group gives the total over all rows, when the
    keys are distinct and every row's key is among them. *)
Lemma sum_of_groups {A} (key : A -> string) (w : A -> nat) ks l :
  NoDup ks ->
  (forall r, In r l -> In (key r) ks) ->
  sum_of (fun k => sum_of w (filter (fun r => key r =? k) l)) ks = sum_of w l.
Proof.
  intros N. induction l as [|r l IH]; intros C; simpl.
  - apply sum_of_zero.
  - transitivity
      (sum_of (fun k => (if key r =? k then w r else 0)
                        + sum_of w (filter (fun r0 => key r0 =? k) l)) ks).
    + apply sum_of_ext, Forall_forall. intros k _.
      now destruct (key r =? k).
    + rewrite sum_of_plus, (sum_of_pick (key r) (w r) ks N)
        by (apply C; now left).
      rewrite IH by (intros; apply C; now right). reflexivity.
Qed.

Lemma length_sum_of {A} (l : list A) : length l = sum_of (fun _ => 1) l.
Proof. induction l; simpl; auto. Qed.

Lemma sum_of_map {A B} (g : A -> B) (f : B -> nat) l :
  sum_of f (map g l) = sum_of (fun x => f (g x)) l.
Proof. induction l; simpl; auto. Qed.

(** X19. The content statistics list every content type once; their counts
    add up to the number of content rows and their sizes to the sum of the
    stored file sizes; the list is empty exactly when there is no content
    row, which is when the chart is left out. *)
Theorem content_stats_totals (db : database) :
  NoDup (map Stats.content_type (content_stats db))
  /\ sum_of Stats.count (content_stats db)
     = length (content_contributions db)
  /\ sum_of Stats.total_size (content_stats db)
     = sum_of Content.file_size (content_contributions db)
  /\ (content_stats db = [] <-> content_contributions db = []).
Proof.
  unfold content_stats.
  set (rows := content_contributions db).
  set (ks := group_keys (map Content.content_type rows)).
  assert (N : NoDup ks) by apply group_keys_NoDup.
  assert (C : forall r, In r rows -> In (Content.content_type r) ks)
    by (intros r Hr; apply group_keys_In; now apply in_map).
  split; [|split; [|split]].
  - rewrite map_map. simpl. now rewrite map_id.
  - rewrite sum_of_map. simpl.
    rewrite (sum_of_ext _ (fun k => sum_of (fun _ => 1)
               (filter (fun r => Content.content_type r =? k) rows)))
      by (apply Forall_forall; intros; apply length_sum_of).
    rewrite (sum_of_groups Content.content_type (fun _ => 1) ks rows N C).
    symmetry. apply length_sum_of.
  - rewrite sum_of_map. simpl.
    apply (sum_of_groups Content.content_type Content.file_size ks rows N C).
  - subst ks. destruct rows as [|r rows']; simpl; split; auto; discriminate.
Qed.

Lemma insert_month_In x y l :
  In y (insert_month x l) <-> y = x \/ In y l.
Proof.
  induction l as [|z l IH]; simpl.
  - intuition.
  - destruct (String.leb (Stats.month z) (Stats.month x)); simpl; [intuition|].
    rewrite IH. intuition.
Qed.

Lemma order_months_In y l :
  In y (fold_right insert_month [] l) <-> In y l.
Proof.
  induction l as [|x l IH]; simpl; [tauto|].
  rewrite insert_month_In, IH. intuition.
Qed.

Lemma firstn_member {A} n (x : A) l : In x (firstn n l) -> In x l.
Proof.
  revert l; induction n; intros [|y l]; simpl; try tauto.
  intros [->|H]; auto.
Qed.

(** X20. The monthly trend has at most twelve rows; each row is a month in
    which a content row was created, and its number is the count of the
    content rows of that month, at least one. *)
Theorem monthly_contributions_bounds
    (strftime_Ym : timestamp -> string) (db : database) :
  length (monthly_contributions strftime_Ym db) <= 12
  /\ Forall (fun row =>
       Stats.contributions row
       = count_when (fun r => strftime_Ym (Content.created_at r)
                              =? Stats.month row)
                    (content_contributions db)
       /\ 1 <= Stats.contributions row)
     (monthly_contributions strftime_Ym db).
Proof.
  unfold monthly_contributions. split; [apply firstn_le_length|].
  apply Forall_forall. intros row Hrow.
  apply firstn_member, order_months_In, in_map_iff in Hrow.
  destruct Hrow as (m & <- & Hm). simpl. split; [reflexivity|].
  apply group_keys_In, in_map_iff in Hm. destruct Hm as (r & <- & Hr).
  unfold count_when.
  assert (In r (filter (fun r0 => strftime_Ym (Content.created_at r0)
                                  =? strftime_Ym (Content.created_at r))
                       (content_contributions db)))
    by (apply filter_In; split; [assumption | apply String.eqb_refl]).
  destruct (filter _ _); simpl; [contradiction | lia].
Qed.

(** X21. Of the temple statistics, the rows with a location and the rows
    with a named contributor are never more than the total; and on a
    reachable store the rows counted as having a location, which the query
    decides by the latitude, are the rows that have both coordinates. *)
Theorem temple_stats_consistent (st : app_state) :
  reachable st ->
  let stats := temple_stats (store st) in
  Stats.temples_with_location stats <= Stats.total_temples stats
  /\ Stats.temples_with_named_contributors stats <= Stats.total_temples stats
  /\ Stats.temples_with_location stats
     = length (filter has_location (temples (store st))).
Proof.
  intros R. destruct (reachable_inv st R) as (_ & Ht & _). simpl.
  unfold count_when. split; [apply filter_length_le|].
  split; [apply filter_length_le|].
  apply filter_length_ext_in. eapply Forall_impl; [|exact Ht].
  intros r H. now apply notna_latitude_both.
Qed.

Lemma temple_stats_consistent_witness :
  let stats := temple_stats (store two_temples_state) in
  Stats.total_temples stats = 2
  /\ Stats.temples_with_named_contributors stats = 1
  /\ length (filter has_location (temples (store two_temples_state))) = 1
  /\ Stats.temples_with_location stats
     = length (filter has_location (temples (store two_temples_state))).
Proof.
  split; [reflexivity|]. split; [reflexivity|]. split; [reflexivity|].
  apply (temple_stats_consistent two_temples_state).
  apply reach_upload, reach_upload, reach_start.
Defined.

(* ================================================================= *)
(** * The temple list *)

Lemma filter_comm {A} (f g : A -> bool) l :
  filter f (filter g l) = filter g (filter f l).
Proof.
  induction l as [|x l IH]; simpl; [reflexivity|].
  destruct (f x) eqn:F; destruct (g x) eqn:G; simpl;
    rewrite ?F, ?G, IH; reflexivity.
Qed.

Lemma filter_idem {A} (f : A -> bool) l : filter f (filter f l) = filter f l.
Proof.
  apply filter_all, Forall_forall. intros x Hx.
  now apply filter_In in Hx.
Qed.

Lemma filter_neg_nil {A} (f : A -> bool) l :
  filter f (filter (fun x => negb (f x)) l) = [].
Proof.
  induction l as [|x l IH]; simpl; [reflexivity|].
  destruct (f x) eqn:F; simpl; rewrite ?F; assumption.
Qed.

Lemma filter_split_length {A} (f : A -> bool) l :
  length (filter f l) + length (filter (fun x => negb (f x)) l) = length l.
Proof.
  induction l as [|x l IH]; simpl; [reflexivity|].
  destruct (f x); simpl; lia.
Qed.

(** X22. In the temple list, "With GPS coordinates" and "Without GPS
    coordinates" split the rows that "All" lists, for any search and
    architecture choice; the map below the list gets exactly the rows
    "With GPS coordinates" lists, and nothing under "Without GPS
    coordinates". *)
Theorem view_temples_location_split
    (row_contains : string -> Temple.row -> bool) (db : database)
    (search_term architecture_filter : string) (all : TemplesPage.page) :
  view_temples row_contains db search_term "All" architecture_filter
  = Some all ->
  exists with_gps without_gps,
    view_temples row_contains db search_term "With GPS coordinates"
                 architecture_filter = Some with_gps
    /\ view_temples row_contains db search_term "Without GPS coordinates"
                    architecture_filter = Some without_gps
    /\ length (TemplesPage.found with_gps)
       + length (TemplesPage.found without_gps)
       = length (TemplesPage.found all)
    /\ TemplesPage.temples_with_coords all = TemplesPage.found with_gps
    /\ TemplesPage.temples_with_coords with_gps = TemplesPage.found with_gps
    /\ TemplesPage.temples_with_coords without_gps = [].
Proof.
  unfold view_temples.
  destruct (order_by_desc Temple.created_at (temples db)) as [|r rest];
    [discriminate|].
  set (df := r :: rest).
  set (base := if Py.truthy_str search_term
               then filter (row_contains search_term) df else df).
  simpl. intros H. injection H as <-.
  do 2 eexists. split; [reflexivity|]. split; [reflexivity|].
  cbn [TemplesPage.found TemplesPage.temples_with_coords].
  destruct (negb (architecture_filter =? "All")).
  - rewrite !(filter_comm _ has_location), !(filter_comm (style_is _)).
    rewrite filter_idem, filter_neg_nil. simpl.
    repeat split; auto.
    rewrite <- (filter_split_length has_location
                  (filter (style_is architecture_filter) base)).
    reflexivity.
  - rewrite filter_idem, filter_neg_nil. repeat split; auto.
    apply filter_split_length.
Qed.

Lemma view_temples_location_split_witness :
  exists with_gps without_gps,
    view_temples (fun _ _ => true) (store sample_temple_state) ""
                 "With GPS coordinates" "All" = Some with_gps
    /\ view_temples (fun _ _ => true) (store sample_temple_state) ""
                    "Without GPS coordinates" "All" = Some without_gps
    /\ length (TemplesPage.found with_gps)
       + length (TemplesPage.found without_gps) = 1.
Proof.
  destruct (view_temples_location_split (fun _ _ => true)
              (store sample_temple_state) "" "All"
              {| TemplesPage.architecture_choices := ["All"];
                 TemplesPage.found := temples (store sample_temple_state);
                 TemplesPage.temples_with_coords := [] |})
    as (w & o & Hw & Ho & L & _); [reflexivity|].
  exists w, o. split; [exact Hw|]. split; [exact Ho | exact L].
Defined.

(* ================================================================= *)
(** * Order of the browsing view *)

Lemma insert_desc_perm {A} (key : A -> timestamp) x l :
  Permutation (x :: l) (insert_desc key x l).
Proof.
  induction l as [|y l IH]; simpl; [reflexivity|].
  destruct (Nat.leb (key y) (key x)); [reflexivity|].
  rewrite perm_swap. now constructor.
Qed.

Lemma order_by_desc_perm {A} (key : A -> timestamp) l :
  Permutation l (order_by_desc key l).
Proof.
  unfold order_by_desc. induction l as [|x l IH]; simpl; [constructor|].
  rewrite <- insert_desc_perm. now constructor.
Qed.

Lemma insert_desc_sorted {A} (key : A -> timestamp) x l :
  StronglySorted (fun a b => key b <= key a) l ->
  StronglySorted (fun a b => key b <= key a) (insert_desc key x l).
Proof.
  induction 1 as [|y l Hl IH Hy]; simpl.
  - constructor; constructor.
  - destruct (Nat.leb (key y) (key x)) eqn:E.
    + apply Nat.leb_le in E. constructor; [now constructor|].
      constructor; [assumption|].
      eapply Forall_impl; [|exact Hy]. intros z Hz. simpl in *. lia.
    + apply Nat.leb_gt in E. constructor; [assumption|].
      apply Forall_forall. intros z Hz. apply insert_desc_In in Hz.
      destruct Hz as [->|Hz]; [lia|].
      rewrite Forall_forall in Hy. now apply Hy.
Qed.

Lemma order_by_desc_sorted {A} (key : A -> timestamp) l :
  StronglySorted (fun a b => key b <= key a) (order_by_desc key l).
Proof.
  unfold order_by_desc. induction l as [|x l IH]; simpl; [constructor|].
  now apply insert_desc_sorted.
Qed.

(** X23. The unioned browsing view is made of three runs, content rows,
    then temples, then events; each run holds every row of its table once
    and lists them newest first. *)
Theorem browse_view_newest_first (db : database) :
  exists cs ts es,
    all_contributions db
    = map view_of_content cs ++ map view_of_temple ts ++ map view_of_event es
    /\ Permutation (content_contributions db) cs
    /\ Permutation (temples db) ts
    /\ Permutation (historical_events db) es
    /\ StronglySorted (fun a b => Content.created_at b <= Content.created_at a) cs
    /\ StronglySorted (fun a b => Temple.created_at b <= Temple.created_at a) ts
    /\ StronglySorted (fun a b => Event.created_at b <= Event.created_at a) es.
Proof.
  do 3 eexists. split; [reflexivity|].
  repeat split; try apply order_by_desc_perm; apply order_by_desc_sorted.
Qed.
